(** * Destiny Engine backend: institution resolver and estimate pipeline

    A shallow embedding of the algorithmic core of [backend/main.py] and
    [backend/robust_ai.py], and the properties the specification states
    about it.

    Modelling conventions.
    - Python [float] values are exact rationals ([Q]); rounding, infinities
      and NaN are outside the model.  Python [int] values are [Z].
    - Python [str] values are [string]s of 8-bit characters read as ASCII:
      [lower], [strip], [split] and the regular-expression classes [\d],
      [\s], [\w] act on the ASCII range only.
    - The generative text service is an input: a reply is
      [Some text], a raised exception is [None].
    - A name that is unbound where the source uses it raises [NameError];
      the enclosing [except Exception] handler catches it. *)

From Stdlib Require Import QArith Lqa ZArith Lia Bool List String Ascii.
From Stdlib Require Import Permutation Sorted.
Import ListNotations.
Open Scope string_scope.
Open Scope Q_scope.

(** ** Python string operations *)

Module PyStr.

Definition is_upper (c : ascii) : bool :=
  let n := nat_of_ascii c in (65 <=? n)%nat && (n <=? 90)%nat.

Definition lower_char (c : ascii) : ascii :=
  if is_upper c then ascii_of_nat (nat_of_ascii c + 32) else c.

(** [s.lower()] *)
Fixpoint lower (s : string) : string :=
  match s with
  | EmptyString => EmptyString
  | String c s' => String (lower_char c) (lower s')
  end.

(** [c.isspace()] on the ASCII range: TAB, LF, VT, FF, CR, FS, GS, RS,
    US and space. *)
Definition isspace (c : ascii) : bool :=
  let n := nat_of_ascii c in
  ((9 <=? n)%nat && (n <=? 13)%nat)
  || ((28 <=? n)%nat && (n <=? 32)%nat).

Fixpoint lstrip (s : string) : string :=
  match s with
  | EmptyString => EmptyString
  | String c s' => if isspace c then lstrip s' else s
  end.

Fixpoint rstrip (s : string) : string :=
  match s with
  | EmptyString => EmptyString
  | String c s' =>
      match rstrip s' with
      | EmptyString => if isspace c then EmptyString else String c EmptyString
      | r => String c r
      end
  end.

(** [s.strip()] *)
Definition strip (s : string) : string := rstrip (lstrip s).

(** [needle in hay] for strings: substring test. *)
Fixpoint contains (needle hay : string) : bool :=
  String.prefix needle hay
  || match hay with
     | EmptyString => false
     | String _ hay' => contains needle hay'
     end.

(** [any(keyword in s for keyword in keywords)] *)
Definition any_in (keywords : list string) (s : string) : bool :=
  existsb (fun keyword => contains keyword s) keywords.

(** [s.split()]: maximal runs of non-space characters, in order. *)
Fixpoint split_aux (cur : string) (s : string) : list string :=
  let flush := match cur with EmptyString => [] | _ => [cur] end in
  match s with
  | EmptyString => flush
  | String c s' =>
      if isspace c then flush ++ split_aux EmptyString s'
      else split_aux (cur ++ String c EmptyString) s'
  end.

Definition split (s : string) : list string := split_aux EmptyString s.

(** [s.replace(old, '')] for a non-empty [old]: every non-overlapping
    occurrence, scanning left to right, is removed. *)
Fixpoint remove_all_aux (old : string) (skip : nat) (s : string) : string :=
  match s with
  | EmptyString => EmptyString
  | String c s' =>
      match skip with
      | S k => remove_all_aux old k s'
      | O =>
          if String.prefix old s
          then remove_all_aux old (String.length old - 1) s'
          else String c (remove_all_aux old O s')
      end
  end.

Definition remove_all (old s : string) : string := remove_all_aux old O s.

(** [x in xs] for a list of strings. *)
Definition mem (x : string) (xs : list string) : bool :=
  existsb (String.eqb x) xs.

(** [set(xs)] as a duplicate-free list. *)
Definition to_set (xs : list string) : list string := nodup string_dec xs.

(** [len(a & b)] for two sets. *)
Definition inter_size (a b : list string) : nat :=
  List.length (filter (fun x => mem x b) a).

(** [d.get(key, default)] on a dict literal with distinct keys. *)
Fixpoint dict_get {A : Type} (d : list (string * A)) (key : string) (default : A) : A :=
  match d with
  | [] => default
  | (k, v) :: d' => if String.eqb k key then v else dict_get d' key default
  end.

End PyStr.

(** ** Python numeric built-ins on floats *)

Module PyNum.

(** [max(a, b)]: [b] only when [b > a]. *)
Definition max (a b : Q) : Q := if Qlt_le_dec a b then b else a.

(** [min(a, b)]: [b] only when [b < a]. *)
Definition min (a b : Q) : Q := if Qlt_le_dec b a then b else a.

(** [a > b] *)
Definition gt (a b : Q) : bool := if Qlt_le_dec b a then true else false.

(** Truth value of a number: non-zero. *)
Definition truthy (x : Q) : bool := negb (Qeq_bool x 0).

(** [max(xs)] for a non-empty list: the first maximal element. *)
Definition list_max (x : Q) (xs : list Q) : Q := fold_left max xs x.

(** [xs.sort(reverse=True)]. *)
Fixpoint insert_desc (x : Q) (xs : list Q) : list Q :=
  match xs with
  | [] => [x]
  | y :: ys => if Qlt_le_dec y x then x :: xs else y :: insert_desc x ys
  end.

Fixpoint sort_desc (xs : list Q) : list Q :=
  match xs with
  | [] => []
  | x :: xs' => insert_desc x (sort_desc xs')
  end.

End PyNum.

(** ** Python's [re] module: a backtracking matcher

    Patterns are abstract syntax trees; matching follows the priority order
    of Python's engine (leftmost start, alternatives left to right, greedy
    repetitions longest first, lazy ones shortest first), so the match
    found is the match Python reports. *)

Module Re.

(** Character classes. *)
Inductive cls : Type :=
| Char (c : ascii)              (* a literal character inside a set *)
| Range (lo hi : ascii)         (* [lo-hi] *)
| Digit                         (* \d *)
| Space                         (* \s *)
| Dot                           (* .  without DOTALL: anything but LF *)
| AnyChar                       (* .  with DOTALL *)
| Or (k1 k2 : cls).             (* a set with the members of both *)

Inductive re : Type :=
| Str (lit : string)                               (* literal text *)
| Cls (k : cls)                                    (* one character of a class *)
| Cat (r1 r2 : re)                                 (* r1 r2 *)
| Alt (r1 r2 : re)                                 (* r1|r2 *)
| Rep (lazy : bool) (mn : nat) (mx : option nat) (r : re)
                                                   (* r{mn,mx}, r{mn,mx}? *)
| Bound                                            (* \b *)
| Grp (r : re).                                    (* capturing group 1 *)

Definition is_digit (c : ascii) : bool :=
  let n := nat_of_ascii c in (48 <=? n)%nat && (n <=? 57)%nat.

Definition is_alpha (c : ascii) : bool :=
  let n := nat_of_ascii c in
  ((65 <=? n)%nat && (n <=? 90)%nat) || ((97 <=? n)%nat && (n <=? 122)%nat).

(** [\w]: letters, digits and the underscore. *)
Definition is_word (c : ascii) : bool :=
  is_alpha c || is_digit c || Ascii.eqb c "_".

Fixpoint cls_match (k : cls) (c : ascii) : bool :=
  match k with
  | Char x => Ascii.eqb x c
  | Range lo hi =>
      (nat_of_ascii lo <=? nat_of_ascii c)%nat && (nat_of_ascii c <=? nat_of_ascii hi)%nat
  | Digit => is_digit c
  | Space => PyStr.isspace c
  | Dot => negb (Ascii.eqb c "010")
  | AnyChar => true
  | Or k1 k2 => cls_match k1 c || cls_match k2 c
  end.

(** A position in the subject: the character before it, the text from it
    on, and what group 1 has captured so far. *)
Record pos : Type := mkpos { prev : option ascii; rest : string; grp : option string }.

Definition word_before (p : pos) : bool :=
  match prev p with Some c => is_word c | None => false end.

Definition word_after (p : pos) : bool :=
  match rest p with String c _ => is_word c | EmptyString => false end.

(** Literal comparison, case-insensitive under [re.IGNORECASE]. *)
Definition lit_eq (ic : bool) (a b : ascii) : bool :=
  if ic then Ascii.eqb (PyStr.lower_char a) (PyStr.lower_char b) else Ascii.eqb a b.

Definition step (p : pos) : option (ascii * pos) :=
  match rest p with
  | EmptyString => None
  | String c s => Some (c, mkpos (Some c) s (grp p))
  end.

Definition consumed (p q : pos) : nat := String.length (rest p) - String.length (rest q).

Notation "a 'orelse' b" :=
  (match a with Some x => Some x | None => b end) (at level 60, right associativity).

Section Matcher.
Context {A : Type}.
Variable ic : bool.

Fixpoint match_lit (lit : string) (k : pos -> option A) (p : pos) : option A :=
  match lit with
  | EmptyString => k p
  | String a lit' =>
      match step p with
      | Some (c, p') => if lit_eq ic a c then match_lit lit' k p' else None
      | None => None
      end
  end.

(** The iterations of a repetition, for a body matcher [body] and a
    continuation [k].  [more] runs the optional iterations after the
    first [mn]: each must consume a character, so [fuel], the length of
    the remaining text, bounds their number; [budget] is what the upper
    bound still allows.  [must] runs the [n] compulsory ones first. *)
Section Repetition.
Variable body : (pos -> option A) -> pos -> option A.
Variable lazy : bool.
Variable k : pos -> option A.

Fixpoint more (fuel : nat) (budget : option nat) (p : pos) : option A :=
  match fuel, budget with
  | O, _ => k p
  | _, Some O => k p
  | S fuel', _ =>
      let again :=
        body (fun q =>
                if (String.length (rest q) <? String.length (rest p))%nat
                then more fuel' (option_map Nat.pred budget) q
                else None) p in
      if lazy then k p orelse again else again orelse k p
  end.

Fixpoint must (budget : option nat) (n : nat) (p : pos) : option A :=
  match n with
  | O => more (String.length (rest p)) budget p
  | S n' => body (must budget n') p
  end.
End Repetition.

(** [m r k p]: match [r] at [p] and hand every end position, in
    priority order, to the continuation [k] until it accepts one. *)
Fixpoint m (r : re) (k : pos -> option A) (p : pos) {struct r} : option A :=
  match r with
  | Str lit => match_lit lit k p
  | Cls c =>
      match step p with
      | Some (x, p') => if cls_match c x then k p' else None
      | None => None
      end
  | Cat r1 r2 => m r1 (m r2 k) p
  | Alt r1 r2 => m r1 k p orelse m r2 k p
  | Bound => if xorb (word_before p) (word_after p) then k p else None
  | Grp r1 =>
      m r1 (fun q => k (mkpos (prev q) (rest q)
                          (Some (String.substring 0 (consumed p q) (rest p))))) p
  | Rep lazy mn mx r1 =>
      must (m r1) lazy k (option_map (fun x => x - mn)%nat mx) mn p
  end.
End Matcher.

Definition start_at (before : option ascii) (s : string) : pos := mkpos before s None.

(** [re.search]: the match at the leftmost position that has one. *)
Fixpoint search_from (ic : bool) (r : re) (before : option ascii) (s : string)
  : option pos :=
  m ic r Some (start_at before s)
  orelse match s with
         | EmptyString => None
         | String c s' => search_from ic r (Some c) s'
         end.

Definition search (ic : bool) (r : re) (s : string) : option pos :=
  search_from ic r None s.

(** [match.group(1)] *)
Definition group1 (p : pos) : string :=
  match grp p with Some g => g | None => EmptyString end.

(** [re.findall] for a pattern with one group that never matches the
    empty string: group 1 of the successive non-overlapping matches.
    [skip] counts the characters of the last match still to be passed. *)
Fixpoint findall_from (ic : bool) (r : re) (before : option ascii) (s : string)
    (skip : nat) : list string :=
  let here :=
    match skip with
    | O => m ic r Some (start_at before s)
    | S _ => None
    end in
  let continue (skip' : nat) :=
    match s with
    | EmptyString => []
    | String c s' => findall_from ic r (Some c) s' skip'
    end in
  match here with
  | Some q => group1 q :: continue (Nat.pred (consumed (start_at before s) q))
  | None => continue (Nat.pred skip)
  end.

Definition findall (ic : bool) (r : re) (s : string) : list string :=
  findall_from ic r None s O.

(** Common pieces. *)
Definition star (r : re) : re := Rep false 0 None r.
Definition plus (r : re) : re := Rep false 1 None r.
Definition opt (r : re) : re := Rep false 0 (Some 1%nat) r.
Definition lazy_star (r : re) : re := Rep true 0 None r.
Definition times (lo hi : nat) (r : re) : re := Rep false lo (Some hi) r.

Fixpoint seq (rs : list re) : re :=
  match rs with
  | [] => Str EmptyString
  | [r] => r
  | r :: rs' => Cat r (seq rs')
  end.

End Re.

(** ** Python conversions from text *)

Module PyConv.

Definition digit_value (c : ascii) : Z := Z.of_nat (nat_of_ascii c - 48).

(** [int(s)] for a string of decimal digits. *)
Fixpoint int_digits_acc (acc : Z) (s : string) : Z :=
  match s with
  | EmptyString => acc
  | String c s' => int_digits_acc (10 * acc + digit_value c)%Z s'
  end.

Definition int_digits (s : string) : Z := int_digits_acc 0%Z s.

(** [s.replace(',', '')] *)
Fixpoint drop_commas (s : string) : string :=
  match s with
  | EmptyString => EmptyString
  | String c s' => if Ascii.eqb c "," then drop_commas s' else String c (drop_commas s')
  end.

(** [float(s.replace(',', ''))] for digits with optional commas. *)
Definition float_of_grouped (s : string) : Q := inject_Z (int_digits (drop_commas s)).

(** The text before the first ['.'] and, when there is one, the text
    after it. *)
Fixpoint cut_at_dot (s : string) : string * option string :=
  match s with
  | EmptyString => (EmptyString, None)
  | String c s' =>
      if Ascii.eqb c "." then (EmptyString, Some s')
      else let '(a, b) := cut_at_dot s' in (String c a, b)
  end.

Definition all_digits (s : string) : bool :=
  forallb Re.is_digit (list_ascii_of_string s).

(** [float(s)] for a string of digits and dots, as [[\d.]+] captures:
    digits with at most one dot and at least one digit; anything else
    raises ValueError ([None]). *)
Definition float_of_decimal (s : string) : option Q :=
  let '(ip, fp) := cut_at_dot s in
  let fp := match fp with Some f => f | None => EmptyString end in
  if all_digits ip && all_digits fp
     && (0 <? String.length ip + String.length fp)%nat
  then Some (inject_Z (int_digits ip)
             + inject_Z (int_digits fp) / inject_Z (10 ^ Z.of_nat (String.length fp)))
  else None.

End PyConv.

(** ** robust_ai.py: RobustCareerAnalyzer *)

Module RobustAi.
Import PyStr.

(** The category branches of [_intelligent_validation], in source order:
    (lifetime cap, ten-year cap). *)
Definition validation_caps (aspiration_lower : string) : Q * Q :=
  if any_in ["farm"; "agriculture"; "labor"; "clean"; "driver"; "security"; "retail"]
       aspiration_lower
  then (600000, 120000)
  else if any_in ["teacher"; "nurse"; "police"; "clerk"; "assistant"] aspiration_lower
  then (1200000, 200000)
  else if any_in ["engineer"; "accountant"; "manager"; "analyst"; "designer"]
            aspiration_lower
  then (3000000, 500000)
  else if any_in ["doctor"; "lawyer"; "software"; "consultant"; "finance"]
            aspiration_lower
  then (5000000, 800000)
  else if any_in ["entrepreneur"; "business"; "startup"; "ceo"] aspiration_lower
  then (8000000, 1200000)
  else (2500000, 400000).

(** [country_multipliers] of [_intelligent_validation]. *)
Definition validation_country_multipliers : list (string * Q) :=
  [ ("usa", 1.0); ("united states", 1.0); ("america", 1.0);
    ("canada", 0.9); ("australia", 0.9); ("uk", 0.9); ("united kingdom", 0.9);
    ("germany", 0.8); ("france", 0.8); ("japan", 0.8); ("singapore", 0.9);
    ("india", 0.6); ("china", 0.5); ("brazil", 0.4); ("mexico", 0.4);
    ("nigeria", 0.3); ("bangladesh", 0.3); ("pakistan", 0.3) ].

Definition _intelligent_validation
    (aspiration country : string) (lifetime_nw ten_year_nw : Q) : Q * Q :=
  let aspiration_lower := strip (lower aspiration) in
  let '(max_lifetime, max_ten_year) := validation_caps aspiration_lower in
  let multiplier := dict_get validation_country_multipliers (lower country) 0.5 in
  let max_lifetime := max_lifetime * multiplier in
  let max_ten_year := max_ten_year * multiplier in
  let lifetime_nw :=
    if PyNum.gt lifetime_nw max_lifetime then max_lifetime else lifetime_nw in
  let ten_year_nw :=
    if PyNum.gt ten_year_nw max_ten_year then max_ten_year else ten_year_nw in
  let ten_year_nw :=
    if PyNum.gt ten_year_nw (lifetime_nw * 0.7) then lifetime_nw * 0.4
    else ten_year_nw in
  let lifetime_nw := PyNum.max 50000 lifetime_nw in
  let ten_year_nw := PyNum.max 10000 ten_year_nw in
  (lifetime_nw, ten_year_nw).

(** The category branches of [_get_intelligent_fallback], in source
    order: (base lifetime, base ten-year). *)
Definition fallback_base (aspiration_lower : string) : Q * Q :=
  if any_in ["ai scientist"; "ai engineer"; "artificial intelligence"; "openai"]
       aspiration_lower
  then (3500000, 500000)
  else if any_in ["data scientist"; "machine learning"; "ml engineer"; "ai researcher"]
            aspiration_lower
  then (2800000, 420000)
  else if any_in ["research scientist"; "computer scientist"] aspiration_lower
  then (3000000, 450000)
  else if any_in ["software"; "programmer"; "developer"; "tech"] aspiration_lower
  then (2200000, 380000)
  else if any_in ["engineer"; "technical"] aspiration_lower
  then (2000000, 350000)
  else if any_in ["doctor"; "physician"] aspiration_lower
  then (3200000, 500000)
  else if any_in ["lawyer"; "attorney"] aspiration_lower
  then (2800000, 450000)
  else if any_in ["finance"; "investment"] aspiration_lower
  then (2500000, 420000)
  else if any_in ["consultant"; "consulting"] aspiration_lower
  then (2300000, 400000)
  else if any_in ["teacher"; "education"] aspiration_lower
  then (900000, 150000)
  else if any_in ["nurse"; "healthcare"] aspiration_lower
  then (1100000, 180000)
  else if any_in ["business"; "entrepreneur"] aspiration_lower
  then (1500000, 250000)
  else if any_in ["farm"; "agriculture"] aspiration_lower
  then (500000, 80000)
  else (1200000, 200000).

(** [country_multipliers] of [_get_intelligent_fallback]. *)
Definition fallback_country_multipliers : list (string * Q) :=
  [ ("usa", 1.0); ("united states", 1.0); ("america", 1.0);
    ("canada", 0.9); ("australia", 0.9); ("uk", 0.9); ("united kingdom", 0.9);
    ("germany", 0.8); ("france", 0.8); ("japan", 0.8); ("singapore", 0.9);
    ("india", 0.6); ("china", 0.5); ("brazil", 0.4); ("mexico", 0.4) ].

Definition _get_intelligent_fallback (aspiration country : string) : Q * Q :=
  let aspiration_lower := strip (lower aspiration) in
  let '(base_lifetime, base_ten_year) := fallback_base aspiration_lower in
  let multiplier := dict_get fallback_country_multipliers (lower country) 0.5 in
  let final_lifetime := base_lifetime * multiplier in
  let final_ten_year := base_ten_year * multiplier in
  (final_lifetime, final_ten_year).

(** [\d{1,3}(?:,?\d{3})*] *)
Definition grouped_number : Re.re :=
  Re.Cat (Re.times 1 3 (Re.Cls Re.Digit))
         (Re.star (Re.Cat (Re.opt (Re.Str ",")) (Re.times 3 3 (Re.Cls Re.Digit)))).

(** [[_\s]*] *)
Definition gap : Re.re := Re.star (Re.Cls (Re.Or (Re.Char "_") Re.Space)).

(** A label, then [\s*], an optional dollar sign and, as group 1, a
    grouped number (lines 160-161, 167-168). *)
Definition labeled_value (label : list Re.re) : Re.re :=
  Re.seq (label ++ [Re.star (Re.Cls Re.Space); Re.opt (Re.Str "$"); Re.Grp grouped_number]).

(** A word, then [.*?] and, as group 1, a grouped number (lines 162-163,
    169-170). *)
Definition near_value (word : list Re.re) : Re.re :=
  Re.seq (word ++ [Re.lazy_star (Re.Cls Re.Dot); Re.Grp grouped_number]).

Definition lifetime_patterns : list Re.re :=
  [ labeled_value [Re.Str "LIFETIME_NET_WORTH:"];
    labeled_value [Re.Str "LIFETIME"; gap; Re.Str "NET"; gap; Re.Str "WORTH:"];
    near_value [Re.Str "Lifetime"];
    near_value [Re.Str "Total"] ].

Definition ten_year_patterns : list Re.re :=
  [ labeled_value [Re.Str "TEN_YEAR_NET_WORTH:"];
    labeled_value [Re.Str "TEN"; gap; Re.Str "YEAR"; gap; Re.Str "NET"; gap;
                   Re.Str "WORTH:"];
    near_value [Re.Str "10"; gap; Re.Str "year"];
    near_value [Re.Str "ten"; gap; Re.Str "year"] ].

(** The [for pattern in ...] loops: the number captured by the first
    pattern that [re.search] finds, with [re.IGNORECASE]. *)
Fixpoint first_match (patterns : list Re.re) (response : string) : option Q :=
  match patterns with
  | [] => None
  | pattern :: patterns' =>
      match Re.search true pattern response with
      | Some mt => Some (PyConv.float_of_grouped (Re.group1 mt))
      | None => first_match patterns' response
      end
  end.

(** Lines 173-197: the labeled fields; [None] when the [if] at line 190
    is not taken. *)
Definition labeled_stage (aspiration country response : string) : option (Q * Q) :=
  match first_match lifetime_patterns response,
        first_match ten_year_patterns response with
  | Some lifetime_nw, Some ten_year_nw =>
      if PyNum.truthy lifetime_nw && PyNum.truthy ten_year_nw
      then Some (_intelligent_validation aspiration country lifetime_nw ten_year_nw)
      else None
  | _, _ => None
  end.

(** A grouped number, as group 1, between two [\b] (line 200). *)
Definition all_numbers_pattern : Re.re :=
  Re.seq [Re.Bound; Re.Grp grouped_number; Re.Bound].

(** Lines 200-201: the values above 10000 among the number tokens, in
    text order. *)
Definition large_numbers (response : string) : list Q :=
  filter (fun x => PyNum.gt x 10000)
         (map PyConv.float_of_grouped (Re.findall false all_numbers_pattern response)).

(** Lines 199-214: the two largest numbers; [None] when the [if] at line
    203 is not taken. *)
Definition largest_numbers_stage (aspiration country response : string)
  : option (Q * Q) :=
  match PyNum.sort_desc (large_numbers response) with
  | first :: second :: _ =>
      let lifetime_nw := first in
      let ten_year_nw := PyNum.min second (lifetime_nw * 0.4) in
      Some (_intelligent_validation aspiration country lifetime_nw ten_year_nw)
  | _ => None
  end.

(** The primary method (lines 121-217) on the reply of the service;
    [None] when control leaves the [try] statement without returning. *)
Definition primary_method (aspiration country : string) (reply : option string)
  : option (Q * Q) :=
  match reply with
  | None => None
  | Some response =>
      match labeled_stage aspiration country response with
      | Some estimate => Some estimate
      | None => largest_numbers_stage aspiration country response
      end
  end.

(** Six or more digits, as group 1, between two [\b] (line 239). *)
Definition six_digits_pattern : Re.re :=
  Re.seq [Re.Bound; Re.Grp (Re.Rep false 6 None (Re.Cls Re.Digit)); Re.Bound].

(** The secondary method (lines 220-257). *)
Definition secondary_method (aspiration country : string) (reply : option string)
  : option (Q * Q) :=
  match reply with
  | None => None
  | Some response =>
      match Re.findall false six_digits_pattern response with
      | n0 :: n1 :: _ =>
          let lifetime_nw := inject_Z (PyConv.int_digits n0) in
          let ten_year_nw := inject_Z (PyConv.int_digits n1) in
          let '(lifetime_nw, ten_year_nw) :=
            if PyNum.gt ten_year_nw lifetime_nw
            then (ten_year_nw, lifetime_nw) else (lifetime_nw, ten_year_nw) in
          Some (_intelligent_validation aspiration country lifetime_nw ten_year_nw)
      | _ => None
      end
  end.

(** [get_brutal_career_estimate]; [reply1] and [reply2] are the outcomes
    of the two calls of the service (the second is made only when the
    primary method has not returned). *)
Definition get_brutal_career_estimate
    (aspiration country : string) (reply1 reply2 : option string) : Q * Q :=
  match primary_method aspiration country reply1 with
  | Some estimate => estimate
  | None =>
      match secondary_method aspiration country reply2 with
      | Some estimate => estimate
      | None => _get_intelligent_fallback aspiration country
      end
  end.

(** *** RobustUniversityAnalyzer *)

Definition elite_unis : list string :=
  [ "harvard"; "mit"; "stanford"; "yale"; "princeton"; "oxford"; "cambridge";
    "iit bombay"; "iit delhi"; "iit madras"; "iit kanpur"; "iit kharagpur" ].

Definition top_unis : list string :=
  [ "columbia"; "brown"; "cornell"; "dartmouth"; "upenn"; "berkeley"; "ucla";
    "university of chicago"; "northwestern"; "duke"; "johns hopkins";
    "iit roorkee"; "iit guwahati"; "iisc bangalore"; "iim ahmedabad";
    "iim bangalore" ].

Definition good_unis : list string :=
  [ "university of michigan"; "georgia tech"; "carnegie mellon"; "virginia tech";
    "nit trichy"; "nit warangal"; "nit surathkal"; "bits pilani"; "dtu"; "nsit" ].

Definition _get_fallback_university_rating (university_name : string) : string * Z :=
  let name_lower := strip (lower university_name) in
  if any_in elite_unis name_lower then ("S+", 92%Z)
  else if any_in top_unis name_lower then ("S", 85%Z)
  else if any_in good_unis name_lower then ("A+", 75%Z)
  else if any_in ["institute"; "college"; "university"] name_lower then ("B", 45%Z)
  else ("C", 35%Z).

(** [get_strict_university_assessment].  The first statement of its [try]
    body evaluates [groq_service.generate_response], but robust_ai.py
    binds the service under the name [ai_service] only
    ([from groq_service import groq_service as ai_service]): the name
    [groq_service] is unbound, NameError is raised, the
    [except Exception] handler logs it, and control reaches the static
    rating.  The parsing code of the [try] body is never run. *)
Definition get_strict_university_assessment (university_name : string) : string * Z :=
  _get_fallback_university_rating university_name.

End RobustAi.

(** ** main.py: validate_wealth_estimates *)

Module Main.
Import PyStr.

(** [career_caps], in insertion order. *)
Definition career_caps : list (string * (Q * Q)) :=
  [ ("farmer", (500000, 100000));
    ("farming", (500000, 100000));
    ("agriculture", (600000, 120000));
    ("teacher", (800000, 150000));
    ("teaching", (800000, 150000));
    ("retail", (600000, 100000));
    ("cashier", (400000, 80000));
    ("waiter", (400000, 80000));
    ("driver", (500000, 100000));
    ("security", (500000, 90000));
    ("cleaner", (350000, 70000));
    ("cook", (450000, 90000));
    ("nurse", (1200000, 200000));
    ("engineer", (2500000, 450000));
    ("accountant", (1500000, 250000));
    ("manager", (2000000, 350000));
    ("analyst", (1800000, 300000));
    ("designer", (1400000, 250000));
    ("marketing", (1600000, 280000));
    ("sales", (1800000, 300000));
    ("doctor", (4000000, 600000));
    ("lawyer", (3500000, 500000));
    ("software", (3000000, 500000));
    ("consultant", (3500000, 550000));
    ("finance", (4000000, 600000));
    ("investment", (5000000, 800000));
    ("entrepreneur", (10000000, 1000000)) ].

(** The [for ... in career_caps.items()] loop with its [break]: the caps
    of the first keyword contained in the aspiration. *)
Fixpoint find_caps (caps : list (string * (Q * Q))) (aspiration_lower : string)
  : option (Q * Q) :=
  match caps with
  | [] => None
  | (career_keyword, cap) :: caps' =>
      if contains career_keyword aspiration_lower then Some cap
      else find_caps caps' aspiration_lower
  end.

Definition validate_wealth_estimates
    (aspiration : string) (lifetime_nw ten_year_nw : Q) : Q * Q :=
  let aspiration_lower := lower aspiration in
  let '(lifetime_nw, ten_year_nw) :=
    match find_caps career_caps aspiration_lower with
    | Some (max_lifetime, max_ten_year) =>
        if PyNum.truthy max_lifetime && PyNum.truthy max_ten_year then
          let lifetime_nw :=
            if PyNum.gt lifetime_nw max_lifetime then max_lifetime else lifetime_nw in
          let ten_year_nw :=
            if PyNum.gt ten_year_nw max_ten_year then max_ten_year else ten_year_nw in
          (lifetime_nw, ten_year_nw)
        else (lifetime_nw, ten_year_nw)
    | None => (lifetime_nw, ten_year_nw)
    end in
  let lifetime_nw :=
    if PyNum.gt lifetime_nw 20000000 then 20000000 else lifetime_nw in
  let ten_year_nw :=
    if PyNum.gt ten_year_nw (lifetime_nw * 0.6) then lifetime_nw * 0.3
    else ten_year_nw in
  let ten_year_nw := if PyNum.gt 10000 ten_year_nw then 10000 else ten_year_nw in
  let lifetime_nw := if PyNum.gt 50000 lifetime_nw then 50000 else lifetime_nw in
  (lifetime_nw, ten_year_nw).

(** *** The reference catalog *)

(** A row of the university table.  A field is [None] when the table
    has no such column; a rank cell is [None] when its value is missing
    (NaN). *)
Record row : Type := mkrow {
  university_name : string;
  tier : option string;
  qs_rank : option (option Z);
  nirf_rank : option (option Z)
}.

(** [row.get('tier', 'A')] and
    [row.get('qs_rank', row.get('nirf_rank', 300))], returned as
    [tier, int(rank) if pd.notna(rank) else 300]. *)
Definition tier_and_rank (r : row) : string * Z :=
  let tier := match tier r with Some t => t | None => "A" end in
  let rank :=
    match qs_rank r with
    | Some cell => cell
    | None => match nirf_rank r with Some cell => cell | None => Some 300%Z end
    end in
  (tier, match rank with Some n => n | None => 300%Z end).

(** *** get_ai_university_assessment *)

Definition tier_pattern : Re.re :=
  Re.seq [Re.Str "TIER:"; Re.star (Re.Cls Re.Space);
          Re.Grp (Re.Cat (Re.Cls (Re.Range "A" "C")) (Re.opt (Re.Cls (Re.Char "+"))))].

Definition rank_pattern : Re.re :=
  Re.seq [Re.Str "RANK:"; Re.star (Re.Cls Re.Space); Re.Grp (Re.plus (Re.Cls Re.Digit))].

(** Lines 410-416: the final fallback. *)
Definition final_university_fallback (college_name : string) : string * Z :=
  if contains "university of" (lower college_name)
     && any_in ["haldia"; "local"; "regional"] (lower college_name)
  then ("C", 1500%Z)
  else ("B", 800%Z).

(** [get_ai_university_assessment].  When the two patterns do not both
    match, the fallback parsing at line 403 reads the unbound name
    [content]: NameError is raised and caught at line 407, like a failure
    of the service. *)
Definition get_ai_university_assessment (college_name : string) (reply : option string)
  : string * Z :=
  match reply with
  | Some response =>
      match Re.search false tier_pattern response,
            Re.search false rank_pattern response with
      | Some tier_match, Some rank_match =>
          (Re.group1 tier_match, PyConv.int_digits (Re.group1 rank_match))
      | _, _ => final_university_fallback college_name
      end
  | None => final_university_fallback college_name
  end.

(** *** find_university_tier *)

(** Which [return] statement produced the result. *)
Inductive method : Type :=
| no_catalog                    (* line 277 *)
| exact                         (* line 295 *)
| fuzzy (best_score : Q)        (* line 345 *)
| external_fallback.            (* line 354 *)

Definition abbreviations : list string := ["iit"; "nit"; "iisc"; "iim"; "bits"].

(** [row['university_name'].lower().strip()] *)
Definition normalized_name (r : row) : string := strip (lower (university_name r)).

(** Lines 302-333: the list [matches] built for one row. *)
Definition matches (college_clean : string) (college_words : list string) (r : row)
  : list Q :=
  let uni_name := normalized_name r in
  let uni_words := to_set (split uni_name) in
  (if contains college_clean uni_name then [0.9] else [])
  ++ (if contains uni_name college_clean then [0.8] else [])
  ++ (if (0 <? List.length college_words)%nat && (0 <? List.length uni_words)%nat then
        let overlap := inter_size college_words uni_words in
        let word_score :=
          inject_Z (Z.of_nat overlap)
          / inject_Z (Z.of_nat (Nat.max (List.length college_words) (List.length uni_words))) in
        if PyNum.gt word_score 0.3 then [word_score] else []
      else [])
  ++ (if any_in abbreviations college_clean then
        if any_in abbreviations uni_name then
          flat_map
            (fun keyword =>
               if contains keyword college_clean && contains keyword uni_name then
                 let college_parts := split (strip (remove_all keyword college_clean)) in
                 let uni_parts := split (strip (remove_all keyword uni_name)) in
                 if existsb (fun part => mem part uni_parts)
                      (filter (fun part => (2 <? String.length part)%nat) college_parts)
                 then [0.95] else []
               else [])
            abbreviations
        else []
      else []).

(** Lines 335-339: the update of [(best_match, best_score)] by one row. *)
Definition consider (college_clean : string) (college_words : list string)
    (best : option row * Q) (r : row) : option row * Q :=
  match matches college_clean college_words r with
  | [] => best
  | x :: xs =>
      let score := PyNum.list_max x xs in
      if PyNum.gt score (snd best) then (Some r, score) else best
  end.

(** Lines 298-339: the loop over the rows. *)
Definition scored_pass (university_data : list row) (college_clean : string)
    (college_words : list string) : option row * Q :=
  fold_left (consider college_clean college_words) university_data (None, 0).

(** Lines 286-288: the rows whose normalized name is the query. *)
Definition exact_match (university_data : list row) (college_clean : string) : list row :=
  filter (fun r => String.eqb (normalized_name r) college_clean) university_data.

(** [find_university_tier]: the returned [(tier, rank)] with the [return]
    statement that produced it.  [reply] is the outcome of the service
    call made when the table is empty. *)
Definition find_university_tier (university_data : list row) (college_name : string)
    (reply : option string) : method * (string * Z) :=
  match university_data with
  | [] => (no_catalog, get_ai_university_assessment college_name reply)
  | _ :: _ =>
      let college_clean := lower (strip college_name) in
      let college_words := to_set (split college_clean) in
      match exact_match university_data college_clean with
      | r :: _ => (exact, tier_and_rank r)
      | [] =>
          match scored_pass university_data college_clean college_words with
          | (Some best_match, best_score) =>
              if PyNum.gt best_score 0.3
              then (fuzzy best_score, tier_and_rank best_match)
              else (external_fallback,
                    RobustAi.get_strict_university_assessment college_name)
          | (None, _) =>
              (external_fallback, RobustAi.get_strict_university_assessment college_name)
          end
      end
  end.

(** *** get_success_probability *)

Definition probability_pattern : Re.re :=
  Re.seq [Re.Str "PROBABILITY:"; Re.star (Re.Cls Re.Space);
          Re.Grp (Re.plus (Re.Cls (Re.Or Re.Digit (Re.Char "."))))].

(** With [re.DOTALL]. *)
Definition reasoning_pattern : Re.re :=
  Re.seq [Re.Str "REASONING:"; Re.star (Re.Cls Re.Space);
          Re.Grp (Re.plus (Re.Cls Re.AnyChar))].

(** [0\.\d+]; the pattern has no group, so [re.findall] returns the whole
    match. *)
Definition zero_point_pattern : Re.re :=
  Re.Grp (Re.seq [Re.Str "0."; Re.plus (Re.Cls Re.Digit)]).

(** The reasoning text returned with the probability: the text parsed
    from the reply, or one of the fixed sentences. *)
Inductive reasoning : Type :=
| parsed (text : string)         (* line 682 *)
| solid_pathway                  (* line 707 *)
| fallback_reason.               (* line 728 *)

(** [max(0.1, min(0.95, probability))] *)
Definition clamp_probability (probability : Q) : Q :=
  PyNum.max 0.1 (PyNum.min 0.95 probability).

Definition tier_probabilities : list (string * Q) :=
  [ ("S+", 0.85); ("S", 0.75); ("A+", 0.65); ("A", 0.55);
    ("B+", 0.45); ("B", 0.35); ("C", 0.25) ].

(** Lines 712-731: the fallback on tier and age. *)
Definition tier_fallback (age : Z) (college_tier : string) : Q * reasoning :=
  let base_prob := dict_get tier_probabilities college_tier 0.4 in
  let base_prob :=
    if (age <=? 22)%Z then base_prob + 0.05
    else if (30 <=? age)%Z then base_prob - 0.05
    else base_prob in
  (clamp_probability base_prob, fallback_reason).

(** Lines 698-710 and what follows them: the handler of the outer [try],
    with the reply to the simpler prompt. *)
Definition retry_simple (age : Z) (college_tier : string) (reply2 : option string)
  : Q * reasoning :=
  match reply2 with
  | Some response =>
      match Re.findall false zero_point_pattern response with
      | n :: _ =>
          match PyConv.float_of_decimal n with
          | Some probability => (clamp_probability probability, solid_pathway)
          | None => tier_fallback age college_tier
          end
      | [] => tier_fallback age college_tier
      end
  | None => tier_fallback age college_tier
  end.

(** [get_success_probability].  When the first reply does not carry both
    fields, line 691 reads the unbound name [content] and raises
    NameError; [float] raises ValueError on a malformed number.  Both
    reach the handler, as a failure of the service does. *)
Definition get_success_probability (age : Z) (college_tier : string)
    (reply1 reply2 : option string) : Q * reasoning :=
  match reply1 with
  | Some response =>
      match Re.search false probability_pattern response,
            Re.search false reasoning_pattern response with
      | Some prob_match, Some reason_match =>
          match PyConv.float_of_decimal (Re.group1 prob_match) with
          | Some probability =>
              (clamp_probability probability, parsed (strip (Re.group1 reason_match)))
          | None => retry_simple age college_tier reply2
          end
      | _, _ => retry_simple age college_tier reply2
      end
  | None => retry_simple age college_tier reply2
  end.

End Main.

(** ** Invariants named by the specification *)

Module Invariants.

(** Ratio invariant with threshold [r] and tolerance [eps]:
    [short <= long * r + eps] and [short <= long]. *)
Definition ratio_invariant (r eps : Q) (p : Q * Q) : Prop :=
  snd p <= fst p * r + eps /\ snd p <= fst p.

(** Floor invariant: [long >= 50000] and [short >= 10000]. *)
Definition floor_invariant (p : Q * Q) : Prop :=
  50000 <= fst p /\ 10000 <= snd p.

(** The score of one row in the scored pass: the maximum of the signals
    collected for it, and 0 when there is none. *)
Definition entry_score (college_clean : string) (college_words : list string)
    (r : Main.row) : Q :=
  match Main.matches college_clean college_words r with
  | [] => 0
  | x :: xs => PyNum.list_max x xs
  end.

(** What the loop of the scored pass has established after the rows
    [done]: the best score bounds their scores, and the best match, when
    there is one, is one of them and attains it. *)
Definition loop_invariant (college_clean : string) (college_words : list string)
    (done : list Main.row) (best : option Main.row * Q) : Prop :=
  0 <= snd best
  /\ (forall r, In r done -> entry_score college_clean college_words r <= snd best)
  /\ ((fst best = None /\ snd best = 0)
      \/ exists r, In r done /\ fst best = Some r
                   /\ entry_score college_clean college_words r = snd best).


End Invariants.

(** ** Text without digits *)

Module DigitFree.

(** No character of the text is a decimal digit. *)
Fixpoint no_digit (s : string) : bool :=
  match s with
  | EmptyString => true
  | String c s' => negb (Re.is_digit c) && no_digit s'
  end.

(** A reply of the service that carries no digit: a failure of the
    service, or a text without digits. *)
Definition digit_free_reply (reply : option string) : Prop :=
  match reply with
  | None => True
  | Some text => no_digit text = true
  end.

(** A sufficient syntactic condition for every match of a pattern to
    consume a digit. *)
Fixpoint needs_digit (r : Re.re) : bool :=
  match r with
  | Re.Str _ => false
  | Re.Cls k => match k with Re.Digit => true | _ => false end
  | Re.Cat r1 r2 => needs_digit r1 || needs_digit r2
  | Re.Alt r1 r2 => needs_digit r1 && needs_digit r2
  | Re.Rep _ mn _ r1 => (0 <? mn)%nat && needs_digit r1
  | Re.Bound => false
  | Re.Grp r1 => needs_digit r1
  end.

(** A continuation that rejects every position whose remaining text has
    no digit. *)
Definition rejects {A : Type} (k : Re.pos -> option A) : Prop :=
  forall q, no_digit (Re.rest q) = true -> k q = None.

End DigitFree.

(** ** Sample data *)

Module Samples.
Import Main.

(** The row of the specification's scenario. *)
Definition mit_row : row :=
  mkrow "Massachusetts Institute of Technology" (Some "S+") (Some (Some 1%Z)) None.

Definition smith_row : row :=
  mkrow "Smith College" (Some "A") (Some (Some 400%Z)) None.

(** A case and whitespace variant of [mit_row]'s name. *)
Definition mit_variant_row : row :=
  mkrow "  MASSACHUSETTS INSTITUTE OF TECHNOLOGY" (Some "B") (Some (Some 900%Z)) None.

Definition iit_bombay_row : row :=
  mkrow "IIT Bombay" (Some "S+") (Some None) (Some (Some 3%Z)).

End Samples.

(** ** What a pattern matches

    A declarative reading of the patterns, against which the matcher is
    checked: [spans ic r p q] says that [r] can match the text between the
    positions [p] and [q] (with [ic] for [re.IGNORECASE]), and what group 1
    holds at [q]. *)

Module ReSpec.
Import Re.

(** The characters of a literal, one after the other. *)
Fixpoint lit_spans (ic : bool) (lit : string) (p q : pos) : Prop :=
  match lit with
  | EmptyString => q = p
  | String a lit' =>
      exists c p', step p = Some (c, p') /\ lit_eq ic a c = true /\ lit_spans ic lit' p' q
  end.

(** The upper bound of a repetition, for [extra] iterations beyond the
    compulsory [mn]. *)
Definition within (mn : nat) (mx : option nat) (extra : nat) : Prop :=
  match mx with
  | Some x => (extra <= x - mn)%nat
  | None => True
  end.

Inductive spans (ic : bool) : re -> pos -> pos -> Prop :=
| spans_str lit p q :
    lit_spans ic lit p q -> spans ic (Str lit) p q
| spans_cls k p c q :
    step p = Some (c, q) -> cls_match k c = true -> spans ic (Cls k) p q
| spans_cat r1 r2 p q1 q :
    spans ic r1 p q1 -> spans ic r2 q1 q -> spans ic (Cat r1 r2) p q
| spans_alt_left r1 r2 p q :
    spans ic r1 p q -> spans ic (Alt r1 r2) p q
| spans_alt_right r1 r2 p q :
    spans ic r2 p q -> spans ic (Alt r1 r2) p q
| spans_rep lazy mn mx r extra p q :
    within mn mx extra -> repeats ic r (mn + extra) p q ->
    spans ic (Rep lazy mn mx r) p q
| spans_bound p :
    xorb (word_before p) (word_after p) = true -> spans ic Bound p p
| spans_grp r p q :
    spans ic r p q ->
    spans ic (Grp r) p
      (mkpos (prev q) (rest q) (Some (String.substring 0 (consumed p q) (rest p))))
with repeats (ic : bool) : re -> nat -> pos -> pos -> Prop :=
| repeats_none r p : repeats ic r 0 p p
| repeats_more r n p q1 q :
    spans ic r p q1 -> repeats ic r n q1 q -> repeats ic r (S n) p q.

End ReSpec.

(** ** main.py: the oracle functions *)

Module MainOracle.
Import PyStr Main.

(** [a >= b] *)
Definition ge (a b : Q) : bool := if Qlt_le_dec a b then false else true.

Definition get_oracle_confidence (probability : Q) : string :=
  if ge probability 0.8 then "The stars align powerfully in your favor"
  else if ge probability 0.6 then "The cosmic forces show strong promise"
  else if ge probability 0.4 then "The universe whispers of potential"
  else if ge probability 0.2 then "A challenging but possible path lies ahead"
  else "The journey requires extraordinary determination".

Definition lifetime_nw_pattern : Re.re :=
  Re.seq [Re.Str "LIFETIME_NW:"; Re.star (Re.Cls Re.Space);
          Re.Grp (Re.plus (Re.Cls Re.Digit))].

Definition ten_year_nw_pattern : Re.re :=
  Re.seq [Re.Str "TEN_YEAR_NW:"; Re.star (Re.Cls Re.Space);
          Re.Grp (Re.plus (Re.Cls Re.Digit))].

(** [\d+]; the pattern has no group, so [re.findall] returns the whole
    match. *)
Definition digits_pattern : Re.re := Re.Grp (Re.plus (Re.Cls Re.Digit)).

(** Line 632: the emergency fallback. *)
Definition emergency_fallback : Q * Q := (3000000, 600000).

(** Lines 617-632: the handler of the outer [try], with the reply to the
    simpler prompt, and the emergency fallback after it.  The pair built
    from the first number of the reply is returned as it is. *)
Definition retry_lifetime (reply2 : option string) : Q * Q :=
  match reply2 with
  | Some response =>
      match Re.findall false digits_pattern response with
      | n :: _ =>
          let lifetime_estimate := inject_Z (PyConv.int_digits n) in
          (lifetime_estimate, lifetime_estimate * 0.2)
      | [] => emergency_fallback
      end
  | None => emergency_fallback
  end.

(** [get_career_wealth_estimate].  When the first reply does not carry
    both fields, line 606 reads the unbound name [content] and raises
    NameError, which reaches the handler as a failure of the service
    does.  [country] only appears in the prompts. *)
Definition get_career_wealth_estimate (aspiration country : string)
    (reply1 reply2 : option string) : Q * Q :=
  match reply1 with
  | Some response =>
      match Re.search false lifetime_nw_pattern response,
            Re.search false ten_year_nw_pattern response with
      | Some lifetime_match, Some ten_year_match =>
          let lifetime_nw := inject_Z (PyConv.int_digits (Re.group1 lifetime_match)) in
          let ten_year_nw := inject_Z (PyConv.int_digits (Re.group1 ten_year_match)) in
          validate_wealth_estimates aspiration lifetime_nw ten_year_nw
      | _, _ => retry_lifetime reply2
      end
  | None => retry_lifetime reply2
  end.

End MainOracle.

(** * Properties *)

Import PyStr Samples.
Local Open Scope list_scope.

(** ** Tables *)

Lemma dict_get_Forall {A : Type} (P : A -> Prop) (d : list (string * A)) key default :
  Forall (fun kv => P (snd kv)) d -> P default -> P (dict_get d key default).
Proof.
  intros Hd Hdef. induction Hd as [| [k v] d' Hv _ IH]; simpl; auto.
  destruct (String.eqb k key); auto.
Qed.

Ltac split_ifs :=
  repeat match goal with
         | |- context [if ?b then _ else _] => destruct b
         end.

Lemma validation_multiplier_range country :
  let m := dict_get RobustAi.validation_country_multipliers (lower country) 0.5 in
  0.3 <= m /\ m <= 1.
Proof.
  apply (dict_get_Forall (fun m => 0.3 <= m /\ m <= 1)).
  - unfold RobustAi.validation_country_multipliers.
    repeat constructor; simpl; lra.
  - lra.
Qed.

Lemma fallback_multiplier_range country :
  let m := dict_get RobustAi.fallback_country_multipliers (lower country) 0.5 in
  0.4 <= m /\ m <= 1.
Proof.
  apply (dict_get_Forall (fun m => 0.4 <= m /\ m <= 1)).
  - unfold RobustAi.fallback_country_multipliers.
    repeat constructor; simpl; lra.
  - lra.
Qed.

Lemma validation_caps_range s :
  600000 <= fst (RobustAi.validation_caps s) /\ 120000 <= snd (RobustAi.validation_caps s).
Proof.
  unfold RobustAi.validation_caps. split_ifs; simpl; lra.
Qed.

Lemma find_caps_range caps s cap :
  Forall (fun kv => 350000 <= fst (snd kv) /\ 70000 <= snd (snd kv)) caps ->
  Main.find_caps caps s = Some cap ->
  350000 <= fst cap /\ 70000 <= snd cap.
Proof.
  intros Hc. induction Hc as [| [k v] caps' Hv _ IH]; simpl; [discriminate|].
  destruct (contains k s); [intros [= <-]; exact Hv | exact IH].
Qed.

Lemma career_caps_range s cap :
  Main.find_caps Main.career_caps s = Some cap ->
  350000 <= fst cap /\ 70000 <= snd cap.
Proof.
  apply find_caps_range. unfold Main.career_caps.
  repeat constructor; simpl; lra.
Qed.

(** ** The validation clamps *)

(** Case analysis on the comparisons of a goal or hypothesis, innermost
    comparison first. *)
Ltac plain_cmp a b :=
  lazymatch a with
  | context [Qlt_le_dec _ _] => fail
  | _ => lazymatch b with
         | context [Qlt_le_dec _ _] => fail
         | _ => destruct (Qlt_le_dec a b)
         end
  end.

Ltac split_cmp :=
  unfold PyNum.gt, PyNum.max, PyNum.min;
  repeat match goal with
         | |- context [Qlt_le_dec ?a ?b] => plain_cmp a b
         end.

Lemma scaled_caps_range aspiration_lower country :
  let m := dict_get RobustAi.validation_country_multipliers (lower country) 0.5 in
  180000 <= fst (RobustAi.validation_caps aspiration_lower) * m
  /\ 36000 <= snd (RobustAi.validation_caps aspiration_lower) * m.
Proof.
  intros m.
  destruct (validation_multiplier_range country) as [Hlo Hhi].
  destruct (validation_caps_range aspiration_lower) as [Hl Ht].
  fold m in Hlo, Hhi. split; nra.
Qed.

(** The same, discarding at once a branch the context refutes. *)
Ltac decide_cmp :=
  unfold PyNum.gt, PyNum.max, PyNum.min;
  repeat match goal with
         | |- context [Qlt_le_dec ?a ?b] => plain_cmp a b; try (exfalso; lra)
         end.

Ltac split_cmp_in H :=
  unfold PyNum.gt, PyNum.max, PyNum.min in H;
  repeat match type of H with
         | context [Qlt_le_dec ?a ?b] => plain_cmp a b
         end.

(** C1. The validation clamp is idempotent: applied to its own output, with
    the same category (and country), it returns that output unchanged.
    This holds, as an equality of pairs, for [_intelligent_validation] of
    robust_ai.py and for [validate_wealth_estimates] of main.py. *)
Theorem validation_clamp_idempotent :
  (forall aspiration country lifetime_nw ten_year_nw,
      let p := RobustAi._intelligent_validation aspiration country lifetime_nw ten_year_nw in
      RobustAi._intelligent_validation aspiration country (fst p) (snd p) = p)
  /\ (forall aspiration lifetime_nw ten_year_nw,
      let p := Main.validate_wealth_estimates aspiration lifetime_nw ten_year_nw in
      Main.validate_wealth_estimates aspiration (fst p) (snd p) = p).
Proof.
  split.
  - intros aspiration country l t p.
    destruct p as [l' t'] eqn:E. subst p. cbn [fst snd].
    unfold RobustAi._intelligent_validation in *.
    pose proof (scaled_caps_range (strip (lower aspiration)) country) as H.
    destruct (RobustAi.validation_caps (strip (lower aspiration))) as [ML MT].
    simpl in H. destruct H as [HL HT].
    set (cl := ML * _) in *. set (ct := MT * _) in *. clearbody cl ct.
    cbv zeta in *.
    split_cmp_in E; injection E as <- <-; decide_cmp; reflexivity.
  - intros aspiration l t p.
    destruct p as [l' t'] eqn:E. subst p. cbn [fst snd].
    unfold Main.validate_wealth_estimates in *.
    destruct (Main.find_caps Main.career_caps (lower aspiration)) as [[ML MT]|] eqn:F.
    + apply career_caps_range in F. simpl in F. destruct F as [HL HT].
      destruct (PyNum.truthy ML && PyNum.truthy MT); cbv zeta in *;
        split_cmp_in E; injection E as <- <-; decide_cmp; reflexivity.
    + cbv zeta in *.
      split_cmp_in E; injection E as <- <-; decide_cmp; reflexivity.
Qed.

Ltac clamp_cases :=
  cbv zeta; split_cmp; cbn [fst snd]; try split; lra.

(** C2 (as amended). Every pair returned by a validation clamp has
    [short <= long].  [validate_wealth_estimates] moreover returns
    [short <= 0.6 * long], with no tolerance needed, and
    [_intelligent_validation], whose threshold is 70%, returns
    [short <= 0.7 * long]. *)
Theorem validation_clamp_ratio :
  (forall aspiration lifetime_nw ten_year_nw,
      Invariants.ratio_invariant 0.6 0
        (Main.validate_wealth_estimates aspiration lifetime_nw ten_year_nw))
  /\ (forall aspiration country lifetime_nw ten_year_nw,
      Invariants.ratio_invariant 0.7 0
        (RobustAi._intelligent_validation aspiration country lifetime_nw ten_year_nw)).
Proof.
  unfold Invariants.ratio_invariant. split.
  - intros aspiration l t. unfold Main.validate_wealth_estimates.
    destruct (Main.find_caps Main.career_caps (lower aspiration)) as [[ML MT]|].
    + destruct (PyNum.truthy ML && PyNum.truthy MT); clamp_cases.
    + clamp_cases.
  - intros aspiration country l t. unfold RobustAi._intelligent_validation.
    destruct (RobustAi.validation_caps (strip (lower aspiration))) as [ML MT].
    set (cl := ML * _). set (ct := MT * _). clearbody cl ct. clamp_cases.
Qed.

(** C2 (as stated) fails for [_intelligent_validation]: a teacher in the
    USA with the pair (100000, 65000) is returned unchanged, and 65000
    exceeds 60% of 100000 by far more than a tolerance of one dollar. *)
Lemma validation_clamp_ratio_60_counterexample :
  RobustAi._intelligent_validation "Teacher" "USA" 100000 65000 = (100000, 65000)
  /\ ~ Invariants.ratio_invariant 0.6 1
        (RobustAi._intelligent_validation "Teacher" "USA" 100000 65000).
Proof.
  split; [reflexivity|].
  unfold Invariants.ratio_invariant. vm_compute. intros [H _]. apply H. reflexivity.
Qed.

(** C8. Every pair returned by a validation clamp satisfies the floors
    [long >= 50000] and [short >= 10000]; this holds for
    [_intelligent_validation] and for [validate_wealth_estimates]. *)
Theorem validation_clamp_floor :
  (forall aspiration country lifetime_nw ten_year_nw,
      Invariants.floor_invariant
        (RobustAi._intelligent_validation aspiration country lifetime_nw ten_year_nw))
  /\ (forall aspiration lifetime_nw ten_year_nw,
      Invariants.floor_invariant
        (Main.validate_wealth_estimates aspiration lifetime_nw ten_year_nw)).
Proof.
  unfold Invariants.floor_invariant. split.
  - intros aspiration country l t. unfold RobustAi._intelligent_validation.
    destruct (RobustAi.validation_caps (strip (lower aspiration))) as [ML MT].
    set (cl := ML * _). set (ct := MT * _). clearbody cl ct. clamp_cases.
  - intros aspiration l t. unfold Main.validate_wealth_estimates.
    destruct (Main.find_caps Main.career_caps (lower aspiration)) as [[ML MT]|].
    + destruct (PyNum.truthy ML && PyNum.truthy MT); clamp_cases.
    + clamp_cases.
Qed.

(** ** The fallback estimate generator *)

Lemma fallback_base_range s :
  0 < snd (RobustAi.fallback_base s)
  /\ snd (RobustAi.fallback_base s) < fst (RobustAi.fallback_base s).
Proof.
  unfold RobustAi.fallback_base. split_ifs; simpl; lra.
Qed.

(** C10. For every aspiration and country, [_get_intelligent_fallback]
    returns a pair whose components are both strictly positive and whose
    short-horizon component is strictly below the long-horizon one. *)
Theorem intelligent_fallback_positive_ordered :
  forall aspiration country,
    let p := RobustAi._get_intelligent_fallback aspiration country in
    0 < fst p /\ 0 < snd p /\ snd p < fst p.
Proof.
  intros aspiration country. unfold RobustAi._get_intelligent_fallback.
  pose proof (fallback_base_range (strip (lower aspiration))) as [Hpos Hlt].
  pose proof (fallback_multiplier_range country) as [Hlo _].
  destruct (RobustAi.fallback_base (strip (lower aspiration))) as [bl bt].
  cbn [fst snd] in *. set (m := dict_get _ _ _) in *. clearbody m.
  repeat split; nra.
Qed.

(** ** The success probability *)

Lemma clamp_probability_range probability :
  0.1 <= Main.clamp_probability probability
  /\ Main.clamp_probability probability <= 0.95.
Proof.
  unfold Main.clamp_probability. split_cmp; lra.
Qed.

Ltac split_matches :=
  repeat match goal with
         | |- context [match ?x with _ => _ end] => destruct x
         end.

Lemma tier_fallback_range age college_tier :
  0.1 <= fst (Main.tier_fallback age college_tier)
  /\ fst (Main.tier_fallback age college_tier) <= 0.95.
Proof.
  unfold Main.tier_fallback. cbn [fst]. apply clamp_probability_range.
Qed.

Lemma retry_simple_range age college_tier reply2 :
  0.1 <= fst (Main.retry_simple age college_tier reply2)
  /\ fst (Main.retry_simple age college_tier reply2) <= 0.95.
Proof.
  unfold Main.retry_simple.
  split_matches; cbn [fst];
    first [apply clamp_probability_range | apply tier_fallback_range].
Qed.

(** C9. Every probability returned by [get_success_probability] lies in
    the closed interval [0.1, 0.95], whichever path returns it: the parsed
    reply, the reply to the simpler prompt, or the fallback on tier and
    age. *)
Theorem success_probability_range :
  forall age college_tier reply1 reply2,
    let probability := fst (Main.get_success_probability age college_tier reply1 reply2) in
    0.1 <= probability /\ probability <= 0.95.
Proof.
  intros age college_tier reply1 reply2. unfold Main.get_success_probability.
  split_matches; cbn [fst];
    first [apply clamp_probability_range | apply retry_simple_range].
Qed.

(** ** The institution resolver *)

Import Main.

(** *** The exact pass *)




(** *** The query "mit" *)

(** C5 (as stated) fails: with a table holding only the Massachusetts
    Institute of Technology at tier S+, the query "mit" is not returned by
    the scored pass, whatever the score. *)
Lemma mit_query_not_fuzzy :
  ~ exists best_score, fst (find_university_tier [mit_row] "mit" None) = fuzzy best_score.
Proof.
  intros [best_score H]. vm_compute in H. discriminate H.
Qed.

(** C5 (as amended). With that table the query "mit" has no exact match
    and no row collects any signal in the scored pass (the name contains
    neither the text "mit" nor the word "mit"); the resolver escalates, and
    the static rating reached from there gives tier S+ with score 92,
    because "mit" is in its elite list. *)
Theorem mit_query_escalates :
  forall reply,
    exact_match [mit_row] (lower (strip "mit")) = []
    /\ matches (lower (strip "mit")) (to_set (split (lower (strip "mit")))) mit_row = []
    /\ find_university_tier [mit_row] "mit" reply = (external_fallback, ("S+", 92%Z))
    /\ RobustAi._get_fallback_university_rating "mit" = ("S+", 92%Z).
Proof.
  intros reply. repeat split; reflexivity.
Qed.

(** *** The scored pass *)

Section ScoredPass.
Variable college_clean : string.
Variable college_words : list string.

Let score := Invariants.entry_score college_clean college_words.
Let loop_invariant := Invariants.loop_invariant college_clean college_words.

Lemma consider_invariant done best r :
  loop_invariant done best ->
  loop_invariant (done ++ [r]) (consider college_clean college_words best r).
Proof.
  intros (Hpos & Hle & Hbest). fold score in Hle, Hbest.
  assert (Hin : forall r', In r' (done ++ [r]) -> In r' done \/ r' = r).
  { intros r' H. apply in_app_or in H. destruct H as [H | [H | []]]; auto. }
  unfold loop_invariant, Invariants.loop_invariant, consider. fold score.
  destruct (matches college_clean college_words r) as [| x xs] eqn:M.
  - repeat split; auto.
    + intros r' H. destruct (Hin r' H) as [H' | ->]; auto.
      unfold score, Invariants.entry_score. rewrite M. exact Hpos.
    + destruct Hbest as [Hnone | (r0 & H0 & H1 & H2)]; auto.
      right. exists r0. repeat split; auto. apply in_or_app; auto.
  - assert (Hscore : score r = PyNum.list_max x xs).
    { unfold score, Invariants.entry_score. now rewrite M. }
    unfold PyNum.gt.
    destruct (Qlt_le_dec (snd best) (PyNum.list_max x xs)) as [Hgt | Hngt]; cbn [fst snd].
    + repeat split.
      * lra.
      * intros r' H. destruct (Hin r' H) as [H' | ->].
        -- specialize (Hle r' H'). lra.
        -- rewrite Hscore. lra.
      * right. exists r. repeat split; auto. apply in_or_app. right. now left.
    + repeat split; auto.
      * intros r' H. destruct (Hin r' H) as [H' | ->]; auto.
        rewrite Hscore. exact Hngt.
      * destruct Hbest as [Hnone | (r0 & H0 & H1 & H2)]; auto.
        right. exists r0. repeat split; auto. apply in_or_app; auto.
Qed.

Lemma fold_invariant l :
  forall done best,
    loop_invariant done best ->
    loop_invariant (done ++ l) (fold_left (consider college_clean college_words) l best).
Proof.
  induction l as [| r l IH]; intros done best H; simpl.
  - now rewrite app_nil_r.
  - replace (done ++ r :: l) with ((done ++ [r]) ++ l)
      by (rewrite <- app_assoc; reflexivity).
    apply IH. now apply consider_invariant.
Qed.

Lemma scored_pass_invariant university_data :
  loop_invariant university_data (scored_pass university_data college_clean college_words).
Proof.
  unfold scored_pass. apply (fold_invariant university_data []).
  unfold loop_invariant, Invariants.loop_invariant. cbn [fst snd].
  repeat split; [lra | contradiction | auto].
Qed.
End ScoredPass.

(** C4. In the scored pass (a non-empty table, no exact match) the best
    score is the maximum of the rows' scores, each the maximum of the
    signals collected for the row.  A fuzzy result, carrying the first row
    that attains the best score, is returned if the best score strictly
    exceeds 0.3; otherwise the resolver escalates to the external
    assessment. *)
Theorem scored_pass_threshold :
  forall university_data college_name reply,
    university_data <> [] ->
    exact_match university_data (lower (strip college_name)) = [] ->
    let college_clean := lower (strip college_name) in
    let college_words := to_set (split college_clean) in
    let score := Invariants.entry_score college_clean college_words in
    let best_score := snd (scored_pass university_data college_clean college_words) in
    (forall r, In r university_data -> score r <= best_score)
    /\ (0.3 < best_score ->
        exists r, In r university_data
                  /\ score r = best_score
                  /\ find_university_tier university_data college_name reply
                     = (fuzzy best_score, tier_and_rank r))
    /\ (best_score <= 0.3 ->
        find_university_tier university_data college_name reply
        = (external_fallback, RobustAi.get_strict_university_assessment college_name)).
Proof.
  intros university_data college_name reply Hne Hexact college_clean college_words
         score best_score.
  pose proof (scored_pass_invariant college_clean college_words university_data)
    as (Hpos & Hle & Hbest).
  assert (Hfind :
    find_university_tier university_data college_name reply =
    match scored_pass university_data college_clean college_words with
    | (Some best_match, bs) =>
        if PyNum.gt bs 0.3 then (fuzzy bs, tier_and_rank best_match)
        else (external_fallback, RobustAi.get_strict_university_assessment college_name)
    | (None, _) =>
        (external_fallback, RobustAi.get_strict_university_assessment college_name)
    end).
  { unfold find_university_tier. destruct university_data; [congruence|].
    fold college_clean. fold college_words. fold college_clean in Hexact.
    now rewrite Hexact. }
  subst best_score.
  destruct (scored_pass university_data college_clean college_words) as [bm bs].
  cbn [fst snd] in *. unfold PyNum.gt in Hfind. repeat split.
  - exact Hle.
  - intros Hgt. destruct Hbest as [[_ ->] | (r & Hin & -> & Hr)]; [lra|].
    exists r. repeat split; auto.
    rewrite Hfind. destruct (Qlt_le_dec 0.3 bs); [reflexivity | lra].
  - intros Hngt. rewrite Hfind.
    destruct bm; [destruct (Qlt_le_dec 0.3 bs); [lra | reflexivity] | reflexivity].
Qed.

(** The scored pass on a table where the text "mit" occurs inside
    "Smith College". *)
Lemma scored_pass_threshold_witness :
  [mit_row; smith_row] <> []
  /\ exact_match [mit_row; smith_row] (lower (strip "mit")) = []
  /\ (0.3 < snd (scored_pass [mit_row; smith_row] (lower (strip "mit"))
                   (to_set (split (lower (strip "mit"))))) ->
      exists r, In r [mit_row; smith_row]
                /\ Invariants.entry_score (lower (strip "mit"))
                     (to_set (split (lower (strip "mit")))) r
                   = snd (scored_pass [mit_row; smith_row] (lower (strip "mit"))
                            (to_set (split (lower (strip "mit")))))
                /\ find_university_tier [mit_row; smith_row] "mit" None
                   = (fuzzy (snd (scored_pass [mit_row; smith_row] (lower (strip "mit"))
                                    (to_set (split (lower (strip "mit")))))),
                      tier_and_rank r)).
Proof.
  assert (H1 : [mit_row; smith_row] <> []) by discriminate.
  assert (H2 : exact_match [mit_row; smith_row] (lower (strip "mit")) = [])
    by reflexivity.
  split; [exact H1 | split; [exact H2 |]].
  exact (proj1 (proj2 (scored_pass_threshold [mit_row; smith_row] "mit" None H1 H2))).
Defined.

(** Every signal collected for a row exceeds 0.3, so a row's score exceeds
    0.3 exactly when some signal was collected for it. *)
Lemma matches_above_threshold college_clean college_words r :
  Forall (fun x => 0.3 < x) (matches college_clean college_words r).
Proof.
  assert (Hone : forall x : Q, 0.3 < x -> Forall (fun x => 0.3 < x) [x])
    by (intros x Hx; constructor; [exact Hx | constructor]).
  unfold matches.
  apply Forall_app; split; [| apply Forall_app; split; [| apply Forall_app; split]].
  - destruct (contains college_clean (normalized_name r));
      [apply Hone; lra | constructor].
  - destruct (contains (normalized_name r) college_clean);
      [apply Hone; lra | constructor].
  - match goal with |- context [if ?b then _ else _] => destruct b end; [| constructor].
    unfold PyNum.gt.
    match goal with |- context [Qlt_le_dec ?a ?b] => destruct (Qlt_le_dec a b) end;
      [apply Hone; assumption | constructor].
  - destruct (any_in abbreviations college_clean); [| constructor].
    destruct (any_in abbreviations (normalized_name r)); [| constructor].
    apply Forall_flat_map, Forall_forall. intros keyword _.
    match goal with |- context [if ?b then _ else _] => destruct b end; [| constructor].
    match goal with |- context [if ?b then _ else _] => destruct b end;
      [apply Hone; lra | constructor].
Qed.

Lemma list_max_above (bound x : Q) xs :
  bound < x -> bound < PyNum.list_max x xs.
Proof.
  unfold PyNum.list_max. revert x.
  induction xs as [| y ys IH]; intros x Hx; simpl; [exact Hx|].
  apply IH. unfold PyNum.max. destruct (Qlt_le_dec x y); lra.
Qed.

(** [max] of a non-empty list is one of its elements and bounds them all. *)
Lemma list_max_spec x xs :
  In (PyNum.list_max x xs) (x :: xs)
  /\ forall y, In y (x :: xs) -> y <= PyNum.list_max x xs.
Proof.
  unfold PyNum.list_max. revert x.
  induction xs as [| z zs IH]; intros x; simpl.
  - split; [now left | intros y [<- | []]; lra].
  - destruct (IH (PyNum.max x z)) as [Hin Hle]. split.
    + destruct Hin as [Hin | Hin]; [| now right; right].
      rewrite <- Hin. unfold PyNum.max. destruct (Qlt_le_dec x z); auto.
    + assert (Hx : x <= PyNum.max x z /\ z <= PyNum.max x z)
        by (unfold PyNum.max; destruct (Qlt_le_dec x z); lra).
      assert (Hm : PyNum.max x z <= fold_left PyNum.max zs (PyNum.max x z))
        by (apply Hle; now left).
      intros y [<- | [<- | Hy]]; [lra | lra | apply Hle; now right].
Qed.

Lemma entry_score_above_threshold college_clean college_words r :
  matches college_clean college_words r <> [] <->
  0.3 < Invariants.entry_score college_clean college_words r.
Proof.
  unfold Invariants.entry_score.
  pose proof (matches_above_threshold college_clean college_words r) as H.
  destruct (matches college_clean college_words r) as [| x xs]; split.
  - congruence.
  - lra.
  - intros _. apply list_max_above. now inversion H.
  - discriminate.
Qed.

(** ** The matcher

    The optional iterations of a repetition are counted down from the
    length of the remaining text.  The count never cuts a repetition
    short: any larger count gives the same result. *)

Section Fuel.
Context {A : Type}.
Variable ic : bool.

Section RepetitionFuel.
Variable body : (Re.pos -> option A) -> Re.pos -> option A.
Variable lz : bool.
Variable k : Re.pos -> option A.
Hypothesis body_ext :
  forall k1 k2 p, (forall q, k1 q = k2 q) -> body k1 p = body k2 p.
Hypothesis body_none : forall p, body (fun _ => None) p = None.

Lemma more_enough fuel1 :
  forall fuel2 budget p,
    (String.length (Re.rest p) <= fuel1)%nat ->
    (String.length (Re.rest p) <= fuel2)%nat ->
    Re.more body lz k fuel1 budget p = Re.more body lz k fuel2 budget p.
Proof.
  assert (Hstop : forall fuel budget p,
             String.length (Re.rest p) = O ->
             Re.more body lz k fuel budget p = k p).
  { intros fuel budget p Hp. destruct fuel as [| fuel]; [now destruct budget|].
    simpl. rewrite Hp.
    rewrite (body_ext _ (fun _ => None))
      by (intros q; destruct (_ <? _)%nat eqn:E;
          [apply Nat.ltb_lt in E; lia | reflexivity]).
    rewrite body_none.
    destruct budget as [[| b] |]; destruct lz; try reflexivity; now destruct (k p). }
  induction fuel1 as [| fuel1 IH]; intros fuel2 budget p H1 H2.
  - rewrite !Hstop by lia. reflexivity.
  - destruct fuel2 as [| fuel2]; [rewrite !Hstop by lia; reflexivity|].
    simpl.
    rewrite (body_ext
               (fun q => if (String.length (Re.rest q) <? String.length (Re.rest p))%nat
                         then Re.more body lz k fuel1 (option_map Nat.pred budget) q
                         else None)
               (fun q => if (String.length (Re.rest q) <? String.length (Re.rest p))%nat
                         then Re.more body lz k fuel2 (option_map Nat.pred budget) q
                         else None)).
    + reflexivity.
    + intros q. destruct (_ <? _)%nat eqn:E; [| reflexivity].
      apply Nat.ltb_lt in E. apply IH; lia.
Qed.

Lemma more_ext_k k' fuel :
  (forall q, k q = k' q) ->
  forall budget p, Re.more body lz k fuel budget p = Re.more body lz k' fuel budget p.
Proof.
  intros Hk. induction fuel as [| fuel IH]; intros budget p; simpl.
  - now destruct budget.
  - rewrite (Hk p).
    rewrite (body_ext
               (fun q => if (String.length (Re.rest q) <? String.length (Re.rest p))%nat
                         then Re.more body lz k fuel (option_map Nat.pred budget) q
                         else None)
               (fun q => if (String.length (Re.rest q) <? String.length (Re.rest p))%nat
                         then Re.more body lz k' fuel (option_map Nat.pred budget) q
                         else None)); [reflexivity|].
    intros q. destruct (_ <? _)%nat; [apply IH | reflexivity].
Qed.

Lemma must_ext_k k' budget n :
  (forall q, k q = k' q) ->
  forall p, Re.must body lz k budget n p = Re.must body lz k' budget n p.
Proof.
  intros Hk. induction n as [| n IH]; intros p; simpl.
  - now apply more_ext_k.
  - now apply body_ext.
Qed.

Lemma more_none fuel :
  (forall q, k q = None) -> forall budget p, Re.more body lz k fuel budget p = None.
Proof.
  intros Hk. induction fuel as [| fuel IH]; intros budget p; simpl.
  - now destruct budget.
  - rewrite (body_ext _ (fun _ => None))
      by (intros q; destruct (_ <? _)%nat; [apply IH | reflexivity]).
    rewrite body_none, Hk. destruct budget as [[| b] |]; now destruct lz.
Qed.

Lemma must_none budget n :
  (forall q, k q = None) -> forall p, Re.must body lz k budget n p = None.
Proof.
  intros Hk. induction n as [| n IH]; intros p; simpl.
  - now apply more_none.
  - rewrite (body_ext _ (fun _ => None)) by exact IH. apply body_none.
Qed.
End RepetitionFuel.

Lemma match_lit_ext lit (k1 k2 : Re.pos -> option A) :
  (forall q, k1 q = k2 q) -> forall p, Re.match_lit ic lit k1 p = Re.match_lit ic lit k2 p.
Proof.
  intros Hk. induction lit as [| a lit IH]; intros p; simpl; [apply Hk|].
  destruct (Re.step p) as [[c p'] |]; [| reflexivity].
  destruct (Re.lit_eq ic a c); [apply IH | reflexivity].
Qed.

(** The matcher only looks at what its continuation returns. *)
Lemma m_ext r :
  forall (k1 k2 : Re.pos -> option A) p,
    (forall q, k1 q = k2 q) -> Re.m ic r k1 p = Re.m ic r k2 p.
Proof.
  induction r as [lit | c | r1 IH1 r2 IH2 | r1 IH1 r2 IH2 | lz mn mx r1 IH1 | | r1 IH1];
    intros k1 k2 p Hk; simpl.
  - now apply match_lit_ext.
  - destruct (Re.step p) as [[x p'] |]; [| reflexivity].
    destruct (Re.cls_match c x); [apply Hk | reflexivity].
  - apply IH1. intros q. now apply IH2.
  - rewrite (IH1 k1 k2) by exact Hk. now rewrite (IH2 k1 k2) by exact Hk.
  - apply must_ext_k; [exact IH1 | exact Hk].
  - destruct (xorb _ _); [apply Hk | reflexivity].
  - apply IH1. intros q. apply Hk.
Qed.

(** A continuation that accepts nothing makes the match fail. *)
Lemma m_none r :
  forall p, Re.m ic r (fun _ : Re.pos => @None A) p = None.
Proof.
  induction r as [lit | c | r1 IH1 r2 IH2 | r1 IH1 r2 IH2 | lz mn mx r1 IH1 | | r1 IH1];
    intros p; simpl.
  - revert p. induction lit as [| a lit IH]; intros p; simpl; [reflexivity|].
    destruct (Re.step p) as [[c p'] |]; [| reflexivity].
    destruct (Re.lit_eq ic a c); [apply IH | reflexivity].
  - destruct (Re.step p) as [[x p'] |]; [| reflexivity].
    now destruct (Re.cls_match c x).
  - rewrite (m_ext r1 _ (fun _ => None)) by exact IH2. apply IH1.
  - now rewrite IH1, IH2.
  - apply must_none; [apply m_ext | exact IH1 | reflexivity].
  - now destruct (xorb _ _).
  - apply IH1.
Qed.

(** Enough fuel: the optional iterations of [r{mn,mx}] run with any count
    that is at least the length of the remaining text give the result
    they give with that length, the count the matcher uses. *)
Lemma repetition_fuel_enough r lz (k : Re.pos -> option A) fuel budget p :
  (String.length (Re.rest p) <= fuel)%nat ->
  Re.more (Re.m ic r) lz k fuel budget p
  = Re.more (Re.m ic r) lz k (String.length (Re.rest p)) budget p.
Proof.
  intros H. apply more_enough; [apply m_ext | apply m_none | exact H | lia].
Qed.
End Fuel.

(** Readings of the source's patterns on small texts. *)
Example findall_grouped_numbers :
  Re.findall false RobustAi.all_numbers_pattern
    "aged 25, 1500000 or 300,000; 12,34 and x99 7z"
  = ["25"; "1500000"; "300,000"; "12"; "34"].
Proof. vm_compute. reflexivity. Qed.

(** Without a trailing [\b], the labeled patterns capture digits in
    groups of three from the left: three digits, then whole groups. *)
Example labeled_value_capture :
  option_map Re.group1
    (Re.search true (RobustAi.labeled_value [Re.Str "LIFETIME_NET_WORTH:"])
       "lifetime_net_worth: $5,200,000 and more")
  = Some "5,200,000"
  /\ option_map Re.group1
       (Re.search true (RobustAi.labeled_value [Re.Str "LIFETIME_NET_WORTH:"])
          "LIFETIME_NET_WORTH: 2500000")
     = Some "250000".
Proof. split; vm_compute; reflexivity. Qed.

Example lazy_gap_capture :
  option_map Re.group1
    (Re.search true (RobustAi.near_value [Re.Str "10"; RobustAi.gap; Re.Str "year"])
       "in 10 years: about 280,000 dollars")
  = Some "280,000".
Proof. vm_compute. reflexivity. Qed.

(** ** The numeric extractor *)

Import RobustAi.

(** *** Sorting *)

Import Invariants.





(** *** The largest-numbers stage *)



(** The scenario of the specification: the two large tokens are selected
    and the ages and years are dropped. *)
Example largest_numbers_scenario :
  large_numbers "Aged 25 in 2024: about 1500000 later, 300000 sooner"
  = [inject_Z 1500000; inject_Z 300000]
  /\ get_brutal_career_estimate "Doctor" "USA"
       (Some "Aged 25 in 2024: about 1500000 later, 300000 sooner") None
     = (inject_Z 1500000, inject_Z 300000).
Proof.
  split; vm_compute; reflexivity.
Qed.

(** *** Replies without digits *)

Import DigitFree.

Section NoDigit.
Context {A : Type}.
Variable ic : bool.

Lemma step_no_digit p c p' :
  no_digit (Re.rest p) = true -> Re.step p = Some (c, p') ->
  Re.is_digit c = false /\ no_digit (Re.rest p') = true.
Proof.
  unfold Re.step. destruct (Re.rest p) as [| x s] eqn:E; [discriminate|].
  simpl. intros H [= <- <-]. apply andb_prop in H. destruct H as [H1 H2].
  simpl. split; [now apply negb_true_iff | exact H2].
Qed.

Lemma match_lit_rejects lit (k : Re.pos -> option A) :
  rejects k -> rejects (Re.match_lit ic lit k).
Proof.
  intros Hk. induction lit as [| a lit IH]; intros p Hp; simpl; [now apply Hk|].
  destruct (Re.step p) as [[c p'] |] eqn:E; [| reflexivity].
  destruct (Re.lit_eq ic a c); [| reflexivity].
  apply IH. eapply step_no_digit; eassumption.
Qed.

Section RepetitionRejects.
Variable body : (Re.pos -> option A) -> Re.pos -> option A.
Variable lz : bool.
Variable k : Re.pos -> option A.
Hypothesis body_rejects : forall k', rejects k' -> rejects (body k').
Hypothesis k_rejects : rejects k.

Lemma more_rejects fuel : forall budget, rejects (Re.more body lz k fuel budget).
Proof.
  induction fuel as [| fuel IH]; intros budget p Hp.
  - destruct budget; simpl; now apply k_rejects.
  - assert (Hagain :
      body (fun q =>
              if (String.length (Re.rest q) <? String.length (Re.rest p))%nat
              then Re.more body lz k fuel (option_map Nat.pred budget) q
              else None) p = None).
    { apply body_rejects; [| exact Hp]. intros q Hq.
      destruct (_ <? _)%nat; [now apply IH | reflexivity]. }
    simpl. destruct budget as [[| b] |]; try now apply k_rejects.
    + destruct lz; rewrite Hagain, (k_rejects p Hp); reflexivity.
    + destruct lz; rewrite Hagain, (k_rejects p Hp); reflexivity.
Qed.

Lemma must_rejects budget n : rejects (Re.must body lz k budget n).
Proof.
  induction n as [| n IH]; intros p Hp; simpl.
  - now apply more_rejects.
  - now apply body_rejects.
Qed.
End RepetitionRejects.

(** On a text without digits a pattern fails when it needs a digit, and
    also when its continuation rejects every such text. *)
Lemma m_rejects r :
  forall (k : Re.pos -> option A) p,
    no_digit (Re.rest p) = true ->
    needs_digit r = true \/ rejects k ->
    Re.m ic r k p = None.
Proof.
  induction r as [lit | c | r1 IH1 r2 IH2 | r1 IH1 r2 IH2 | lz mn mx r1 IH1 | | r1 IH1];
    intros k p Hp H; simpl in H.
  - destruct H as [H | H]; [discriminate|]. simpl. now apply match_lit_rejects.
  - simpl. destruct (Re.step p) as [[x p'] |] eqn:E; [| reflexivity].
    destruct (step_no_digit _ _ _ Hp E) as [Hx Hp'].
    destruct H as [H | H].
    + destruct c; try discriminate. simpl. now rewrite Hx.
    + destruct (Re.cls_match c x); [now apply H | reflexivity].
  - simpl. destruct H as [H | H].
    + apply orb_prop in H. destruct H as [H | H].
      * apply IH1; auto.
      * apply IH1; [exact Hp|]. right. intros q Hq. apply IH2; auto.
    + apply IH1; [exact Hp|]. right. intros q Hq. apply IH2; auto.
  - simpl. destruct H as [H | H].
    + apply andb_prop in H. destruct H as [H1 H2].
      rewrite IH1 by auto. apply IH2; auto.
    + rewrite IH1 by auto. apply IH2; auto.
  - simpl. destruct H as [H | H].
    + apply andb_prop in H. destruct H as [Hmn H].
      destruct mn as [| n]; [discriminate|]. simpl. apply IH1; auto.
    + apply must_rejects; [| exact H | exact Hp].
      intros k' Hk' q Hq. apply IH1; auto.
  - destruct H as [H | H]; [discriminate|]. simpl.
    destruct (xorb _ _); [now apply H | reflexivity].
  - simpl. apply IH1; [exact Hp|]. destruct H as [H | H]; [now left | right].
    intros q Hq. now apply H.
Qed.
End NoDigit.

Lemma no_digit_tail c s : no_digit (String c s) = true -> no_digit s = true.
Proof.
  simpl. intros H. apply andb_prop in H. tauto.
Qed.

Lemma search_no_digit ic r s :
  needs_digit r = true -> no_digit s = true -> Re.search ic r s = None.
Proof.
  intros Hr. unfold Re.search. generalize (@None ascii) as before.
  induction s as [| c s IH]; intros before Hs; simpl.
  - rewrite m_rejects; auto.
  - rewrite m_rejects; auto. apply IH. eapply no_digit_tail; eassumption.
Qed.

Lemma findall_no_digit ic r s :
  needs_digit r = true -> no_digit s = true -> Re.findall ic r s = [].
Proof.
  intros Hr. unfold Re.findall. generalize (@None ascii) as before. generalize O as skip.
  induction s as [| c s IH]; intros skip before Hs; simpl.
  - destruct skip; [rewrite m_rejects; auto | reflexivity].
  - assert (Hs' : no_digit s = true) by (eapply no_digit_tail; eassumption).
    destruct skip; [rewrite m_rejects; auto | now apply IH].
Qed.

Lemma first_match_no_digit patterns response :
  Forall (fun pattern => needs_digit pattern = true) patterns ->
  no_digit response = true ->
  first_match patterns response = None.
Proof.
  intros Hp Hr. induction Hp as [| pattern patterns Hpat _ IH]; simpl; [reflexivity|].
  now rewrite search_no_digit.
Qed.

Lemma primary_method_no_digit aspiration country reply :
  digit_free_reply reply -> primary_method aspiration country reply = None.
Proof.
  destruct reply as [response |]; [| reflexivity]. simpl. intros Hr.
  unfold labeled_stage.
  rewrite (first_match_no_digit lifetime_patterns) by (auto; repeat constructor).
  unfold largest_numbers_stage, large_numbers.
  rewrite findall_no_digit by auto. reflexivity.
Qed.

Lemma secondary_method_no_digit aspiration country reply :
  digit_free_reply reply -> secondary_method aspiration country reply = None.
Proof.
  destruct reply as [response |]; [| reflexivity]. simpl. intros Hr.
  rewrite findall_no_digit by auto. reflexivity.
Qed.

(** C7 (as amended). When the extractor exhausts its cascade, that is when
    neither method returns, and in particular whenever each reply is a
    failure of the service or a text without digits, the estimate is the
    static base pair of the aspiration's category scaled by the country
    multiplier, as [_get_intelligent_fallback] computes it: nothing is
    raised and nothing is read from the text.  The pair is returned as it
    is, not passed through the validation clamp. *)
Theorem exhausted_cascade_returns_fallback :
  forall aspiration country reply1 reply2,
    (primary_method aspiration country reply1 = None
     /\ secondary_method aspiration country reply2 = None)
    \/ (digit_free_reply reply1 /\ digit_free_reply reply2) ->
    let multiplier := dict_get fallback_country_multipliers (lower country) 0.5 in
    let base := fallback_base (strip (lower aspiration)) in
    get_brutal_career_estimate aspiration country reply1 reply2
    = _get_intelligent_fallback aspiration country
    /\ _get_intelligent_fallback aspiration country
       = (fst base * multiplier, snd base * multiplier).
Proof.
  intros aspiration country reply1 reply2 H multiplier base.
  assert (Hnone : primary_method aspiration country reply1 = None
                  /\ secondary_method aspiration country reply2 = None).
  { destruct H as [H | [H1 H2]]; [exact H|].
    split; [now apply primary_method_no_digit | now apply secondary_method_no_digit]. }
  destruct Hnone as [H1 H2]. split.
  - unfold get_brutal_career_estimate. now rewrite H1, H2.
  - unfold _get_intelligent_fallback. fold base. fold multiplier.
    destruct base; reflexivity.
Qed.

(** A reply without numbers, then a failure of the service. *)
Lemma exhausted_cascade_returns_fallback_witness :
  (digit_free_reply (Some "I cannot estimate this.") /\ digit_free_reply None)
  /\ get_brutal_career_estimate "AI Scientist" "USA" (Some "I cannot estimate this.") None
     = _get_intelligent_fallback "AI Scientist" "USA".
Proof.
  assert (H : digit_free_reply (Some "I cannot estimate this.") /\ digit_free_reply None)
    by (split; [reflexivity | exact I]).
  split; [exact H|].
  exact (proj1 (exhausted_cascade_returns_fallback "AI Scientist" "USA"
                  (Some "I cannot estimate this.") None (or_intror H))).
Defined.

(** C7 (as stated) fails: for an AI scientist in the USA and replies
    without numbers the cascade is exhausted and the estimate is the
    fallback pair (3500000, 500000); the validation clamp would have cut
    its long horizon to 2500000, so the pair has not been passed through
    it. *)
Lemma fallback_not_validated :
  let estimate :=
    get_brutal_career_estimate "AI Scientist" "USA" (Some "I cannot estimate this.") None in
  primary_method "AI Scientist" "USA" (Some "I cannot estimate this.") = None
  /\ secondary_method "AI Scientist" "USA" None = None
  /\ fst estimate == 3500000
  /\ fst (_intelligent_validation "AI Scientist" "USA" (fst estimate) (snd estimate))
     == 2500000
  /\ ~ fst (_intelligent_validation "AI Scientist" "USA" (fst estimate) (snd estimate))
       == fst estimate.
Proof.
  repeat split; try (vm_compute; reflexivity).
  vm_compute. discriminate.
Qed.

(** * Further properties *)

(** ** The validation clamps, continued *)

(** The scaled caps of [_intelligent_validation] and their range. *)
Lemma scaled_caps_upper aspiration_lower country :
  let m := dict_get validation_country_multipliers (lower country) 0.5 in
  fst (validation_caps aspiration_lower) * m <= 8000000
  /\ snd (validation_caps aspiration_lower) * m <= 1200000.
Proof.
  intros m.
  destruct (validation_multiplier_range country) as [Hlo Hhi]. fold m in Hlo, Hhi.
  assert (H : fst (validation_caps aspiration_lower) <= 8000000
              /\ snd (validation_caps aspiration_lower) <= 1200000
              /\ 0 <= fst (validation_caps aspiration_lower)
              /\ 0 <= snd (validation_caps aspiration_lower)).
  { unfold validation_caps. split_ifs; simpl; lra. }
  destruct H as (H1 & H2 & H3 & H4). split; nra.
Qed.

(** What [_intelligent_validation] guarantees about its result, in terms of
    the scaled caps [cl] and [ct]. *)
Lemma intelligent_validation_facts aspiration country l t :
  let m := dict_get validation_country_multipliers (lower country) 0.5 in
  let cl := fst (validation_caps (strip (lower aspiration))) * m in
  let ct := snd (validation_caps (strip (lower aspiration))) * m in
  let p := _intelligent_validation aspiration country l t in
  (50000 <= fst p /\ 10000 <= snd p)
  /\ (fst p <= cl /\ snd p <= ct)
  /\ (snd p <= fst p * 0.7)
  /\ (fst p <= PyNum.max 50000 l /\ snd p <= PyNum.max 10000 t)
  /\ (50000 <= l -> l <= cl -> 10000 <= t -> t <= ct -> t <= l * 0.7 ->
      fst p == l /\ snd p == t).
Proof.
  intros m cl ct p.
  pose proof (scaled_caps_range (strip (lower aspiration)) country) as [HL HT].
  fold m in HL, HT. fold cl in HL. fold ct in HT.
  subst p. unfold _intelligent_validation.
  destruct (validation_caps (strip (lower aspiration))) as [ML MT].
  cbn [fst snd] in *. fold m. fold cl. fold ct. clearbody cl ct.
  cbv zeta. split_cmp; cbn [fst snd]; repeat split; try lra.
Qed.

Lemma truthy_positive x : 0 < x -> PyNum.truthy x = true.
Proof.
  intros H. unfold PyNum.truthy. apply negb_true_iff.
  destruct (Qeq_bool x 0) eqn:E; [| reflexivity].
  apply Qeq_bool_iff in E. lra.
Qed.

(** What [validate_wealth_estimates] guarantees about its result. *)
Lemma validate_wealth_estimates_facts aspiration l t :
  let p := validate_wealth_estimates aspiration l t in
  (50000 <= fst p /\ 10000 <= snd p)
  /\ (fst p <= 20000000)
  /\ (forall cap, find_caps career_caps (lower aspiration) = Some cap ->
                  fst p <= fst cap /\ snd p <= snd cap)
  /\ (snd p <= fst p * 0.6)
  /\ (fst p <= PyNum.max 50000 l /\ snd p <= PyNum.max 10000 t)
  /\ (50000 <= l -> l <= 20000000 -> 10000 <= t -> t <= l * 0.6 ->
      (forall cap, find_caps career_caps (lower aspiration) = Some cap ->
                   l <= fst cap /\ t <= snd cap) ->
      fst p == l /\ snd p == t).
Proof.
  intros p. subst p. unfold validate_wealth_estimates.
  destruct (find_caps career_caps (lower aspiration)) as [[ML MT] |] eqn:F.
  - destruct (career_caps_range _ _ F) as [HL HT]. cbn [fst snd] in HL, HT.
    rewrite !truthy_positive by lra. cbn [andb].
    assert (Hcap : forall cap, Some (ML, MT) = Some cap -> cap = (ML, MT))
      by (intros cap [= <-]; reflexivity).
    cbv zeta. split_cmp; cbn [fst snd]; repeat split; try lra;
      try (match goal with H : Some _ = Some _ |- _ => apply Hcap in H; subst end;
           cbn [fst snd]; lra);
      try (match goal with
           | H : forall cap, Some _ = Some cap -> _ |- _ =>
               specialize (H _ eq_refl); cbn [fst snd] in H; lra
           end).
  - cbv zeta. split_cmp; cbn [fst snd]; repeat split; try lra; try discriminate.
Qed.

(** X1. Whatever pair it is given, [_intelligent_validation] returns a
    long horizon of at most the category's lifetime cap times the country
    multiplier and a short horizon of at most the ten-year cap times the
    multiplier; in absolute terms, at most 8,000,000 and 1,200,000. *)
Theorem intelligent_validation_within_caps :
  forall aspiration country lifetime_nw ten_year_nw,
    let multiplier := dict_get validation_country_multipliers (lower country) 0.5 in
    let caps := validation_caps (strip (lower aspiration)) in
    let p := _intelligent_validation aspiration country lifetime_nw ten_year_nw in
    fst p <= fst caps * multiplier /\ snd p <= snd caps * multiplier
    /\ fst p <= 8000000 /\ snd p <= 1200000.
Proof.
  intros aspiration country l t multiplier caps p.
  destruct (intelligent_validation_facts aspiration country l t)
    as (_ & [H1 H2] & _).
  destruct (scaled_caps_upper (strip (lower aspiration)) country) as [U1 U2].
  subst p caps multiplier. cbv zeta in *. repeat split; lra.
Qed.

(** X2. [validate_wealth_estimates] never returns a long horizon above the
    global ceiling of 20,000,000, and when a keyword of [career_caps]
    occurs in the aspiration the pair is within that keyword's caps. *)
Theorem validate_wealth_estimates_within_caps :
  forall aspiration lifetime_nw ten_year_nw,
    let p := validate_wealth_estimates aspiration lifetime_nw ten_year_nw in
    fst p <= 20000000
    /\ forall cap, find_caps career_caps (lower aspiration) = Some cap ->
                   fst p <= fst cap /\ snd p <= snd cap.
Proof.
  intros aspiration l t p.
  destruct (validate_wealth_estimates_facts aspiration l t) as (_ & H1 & H2 & _).
  split; assumption.
Qed.

(** X3. A validation clamp only lowers a value, except to lift it to its
    floor: each component of the result is at most the larger of the input
    component and the floor (50000 for the long horizon, 10000 for the
    short one).  This holds for both clamps. *)
Theorem validation_clamp_only_lowers :
  (forall aspiration country lifetime_nw ten_year_nw,
      let p := _intelligent_validation aspiration country lifetime_nw ten_year_nw in
      fst p <= PyNum.max 50000 lifetime_nw /\ snd p <= PyNum.max 10000 ten_year_nw)
  /\ (forall aspiration lifetime_nw ten_year_nw,
      let p := validate_wealth_estimates aspiration lifetime_nw ten_year_nw in
      fst p <= PyNum.max 50000 lifetime_nw /\ snd p <= PyNum.max 10000 ten_year_nw).
Proof.
  split.
  - intros aspiration country l t p.
    now destruct (intelligent_validation_facts aspiration country l t)
      as (_ & _ & _ & H & _).
  - intros aspiration l t p.
    now destruct (validate_wealth_estimates_facts aspiration l t)
      as (_ & _ & _ & _ & H & _).
Qed.



(** X5. [validate_wealth_estimates] leaves a pair that already meets its
    bounds as it is: floors met, global ceiling and the caps of the
    matching keyword (if any) not exceeded, short horizon at most 60% of
    the long one. *)
Theorem validate_wealth_estimates_keeps_valid :
  forall aspiration lifetime_nw ten_year_nw,
    50000 <= lifetime_nw -> lifetime_nw <= 20000000 ->
    10000 <= ten_year_nw -> ten_year_nw <= lifetime_nw * 0.6 ->
    (forall cap, find_caps career_caps (lower aspiration) = Some cap ->
                 lifetime_nw <= fst cap /\ ten_year_nw <= snd cap) ->
    let p := validate_wealth_estimates aspiration lifetime_nw ten_year_nw in
    fst p == lifetime_nw /\ snd p == ten_year_nw.
Proof.
  intros aspiration l t H1 H2 H3 H4 H5 p.
  destruct (validate_wealth_estimates_facts aspiration l t)
    as (_ & _ & _ & _ & _ & H).
  now apply H.
Qed.

(** A nurse: caps 1,200,000 and 200,000. *)
Lemma validate_wealth_estimates_keeps_valid_witness :
  fst (validate_wealth_estimates "Nurse" 900000 150000) == 900000
  /\ snd (validate_wealth_estimates "Nurse" 900000 150000) == 150000.
Proof.
  apply (validate_wealth_estimates_keeps_valid "Nurse" 900000 150000);
    try (vm_compute; congruence).
  intros cap H. vm_compute in H. injection H as <-. split; vm_compute; congruence.
Defined.

(** ** The estimate pipeline as a whole *)

Lemma primary_method_validated aspiration country reply p :
  primary_method aspiration country reply = Some p ->
  exists l t, p = _intelligent_validation aspiration country l t.
Proof.
  unfold primary_method, labeled_stage, largest_numbers_stage.
  destruct reply as [response |]; [| discriminate].
  destruct (first_match lifetime_patterns response) as [l |];
    destruct (first_match ten_year_patterns response) as [t |];
    try destruct (PyNum.truthy l && PyNum.truthy t);
    try (intros [= <-]; eauto; fail);
    destruct (PyNum.sort_desc (large_numbers response)) as [| a [| b rest]];
    try discriminate; intros [= <-]; eauto.
Qed.

Lemma secondary_method_validated aspiration country reply p :
  secondary_method aspiration country reply = Some p ->
  exists l t, p = _intelligent_validation aspiration country l t.
Proof.
  unfold secondary_method.
  destruct reply as [response |]; [| discriminate].
  destruct (Re.findall false six_digits_pattern response) as [| n0 [| n1 rest]];
    try discriminate.
  destruct (PyNum.gt _ _); intros [= <-]; eauto.
Qed.

Lemma fallback_base_bounds s :
  let base := fallback_base s in
  500000 <= fst base /\ fst base <= 3500000
  /\ 80000 <= snd base /\ snd base <= 500000
  /\ snd base <= fst base * 0.2.
Proof.
  unfold fallback_base. split_ifs; simpl; lra.
Qed.

Lemma intelligent_fallback_bounds aspiration country :
  let p := _get_intelligent_fallback aspiration country in
  200000 <= fst p /\ fst p <= 3500000
  /\ 32000 <= snd p /\ snd p <= 500000
  /\ snd p <= fst p * 0.2.
Proof.
  unfold _get_intelligent_fallback.
  pose proof (fallback_base_bounds (strip (lower aspiration))) as H.
  pose proof (fallback_multiplier_range country) as [Hlo Hhi].
  destruct (fallback_base (strip (lower aspiration))) as [bl bt].
  cbn [fst snd] in *. set (m := dict_get _ _ _) in *. clearbody m.
  destruct H as (H1 & H2 & H3 & H4 & H5). repeat split; nra.
Qed.

(** X6. Every estimate [get_brutal_career_estimate] returns, from whichever
    of its three methods and whatever the service replied, has a long
    horizon between 50,000 and 8,000,000, a short horizon between 10,000
    and 1,200,000, and a short horizon of at most 70% of the long one. *)
Theorem career_estimate_bounds :
  forall aspiration country reply1 reply2,
    let p := get_brutal_career_estimate aspiration country reply1 reply2 in
    (50000 <= fst p /\ fst p <= 8000000)
    /\ (10000 <= snd p /\ snd p <= 1200000)
    /\ snd p <= fst p * 0.7.
Proof.
  intros aspiration country reply1 reply2 p.
  assert (Hv : forall l t,
             let q := _intelligent_validation aspiration country l t in
             (50000 <= fst q /\ fst q <= 8000000)
             /\ (10000 <= snd q /\ snd q <= 1200000)
             /\ snd q <= fst q * 0.7).
  { intros l t q.
    destruct (intelligent_validation_facts aspiration country l t)
      as ([F1 F2] & [C1 C2] & R & _).
    destruct (scaled_caps_upper (strip (lower aspiration)) country) as [U1 U2].
    subst q. cbv zeta in *. repeat split; lra. }
  subst p. unfold get_brutal_career_estimate.
  destruct (primary_method aspiration country reply1) as [p1 |] eqn:E1.
  - apply primary_method_validated in E1. destruct E1 as (l & t & ->). apply Hv.
  - destruct (secondary_method aspiration country reply2) as [p2 |] eqn:E2.
    + apply secondary_method_validated in E2. destruct E2 as (l & t & ->). apply Hv.
    + destruct (intelligent_fallback_bounds aspiration country)
        as (H1 & H2 & H3 & H4 & H5).
      repeat split; lra.
Qed.

(** ** The keyword table of [validate_wealth_estimates] *)

(** X7. The loop over [career_caps] stops at the first keyword, in table
    order, that occurs in the lowercased aspiration, and applies its caps;
    when no keyword occurs it finds none.  Later keywords that also occur
    play no part. *)
Theorem find_caps_first_keyword :
  forall caps aspiration_lower,
    match find_caps caps aspiration_lower with
    | Some cap =>
        exists before career_keyword after,
          caps = before ++ (career_keyword, cap) :: after
          /\ contains career_keyword aspiration_lower = true
          /\ forall kv, In kv before -> contains (fst kv) aspiration_lower = false
    | None => forall kv, In kv caps -> contains (fst kv) aspiration_lower = false
    end.
Proof.
  intros caps s. induction caps as [| [k c] caps IH]; simpl.
  - intros kv [].
  - destruct (contains k s) eqn:E.
    + exists [], k, caps. repeat split; auto. intros kv [].
    + destruct (find_caps caps s) as [cap |].
      * destruct IH as (before & k' & after & -> & Hk & Hb).
        exists ((k, c) :: before), k', after. repeat split; auto.
        intros kv [<- | H]; auto.
      * intros kv [<- | H]; auto.
Qed.

(** ** The institution resolver, continued *)

Section FirstBest.
Variable college_clean : string.
Variable college_words : list string.

Let score := entry_score college_clean college_words.

(** After the rows [done]: either no row has scored above 0 yet, or the
    best match is the first of the rows that attain the best score. *)
Let first_best (done : list row) (best : option row * Q) : Prop :=
  0 <= snd best
  /\ ((fst best = None /\ snd best = 0 /\ forall r, In r done -> score r <= 0)
      \/ exists before r after,
           done = before ++ r :: after
           /\ fst best = Some r /\ score r = snd best
           /\ (forall r', In r' before -> score r' < snd best)
           /\ (forall r', In r' after -> score r' <= snd best)).

Lemma consider_first_best done best r :
  first_best done best ->
  first_best (done ++ [r]) (consider college_clean college_words best r).
Proof.
  intros (Hpos & Hbest). unfold first_best, consider.
  assert (Hkeep : score r <= snd best -> first_best (done ++ [r]) best).
  { intros Hle. split; [exact Hpos|].
    destruct Hbest as [(Hn & Hz & Hall) | (before & r0 & after & -> & Hs & Hr0 & Hb & Ha)].
    - left. repeat split; auto. intros r' H. apply in_app_or in H.
      destruct H as [H | [<- | []]]; [auto | now rewrite Hz in Hle].
    - right. exists before, r0, (after ++ [r]). repeat split; auto.
      + now rewrite <- app_assoc.
      + intros r' H. apply in_app_or in H. destruct H as [H | [<- | []]]; auto. }
  destruct (matches college_clean college_words r) as [| x xs] eqn:M.
  - apply Hkeep. unfold score, entry_score. rewrite M. exact Hpos.
  - assert (Hscore : score r = PyNum.list_max x xs).
    { unfold score, entry_score. now rewrite M. }
    unfold PyNum.gt.
    destruct (Qlt_le_dec (snd best) (PyNum.list_max x xs)) as [Hgt | Hngt].
    + cbn [fst snd]. split; [lra|]. right.
      exists done, r, []. repeat split; auto; try contradiction.
      intros r' H.
      destruct Hbest as [(Hn & Hz & Hall) | (before & r0 & after & -> & Hs & Hr0 & Hb & Ha)].
      * specialize (Hall r' H). rewrite Hz in Hgt. lra.
      * apply in_app_or in H. destruct H as [H | [<- | H]].
        -- specialize (Hb r' H). lra.
        -- rewrite Hr0. exact Hgt.
        -- specialize (Ha r' H). lra.
    + apply Hkeep. rewrite Hscore. exact Hngt.
Qed.

Lemma scored_pass_first_best university_data :
  first_best university_data (scored_pass university_data college_clean college_words).
Proof.
  unfold scored_pass.
  assert (H : forall l done best,
             first_best done best ->
             first_best (done ++ l)
               (fold_left (consider college_clean college_words) l best)).
  { induction l as [| r l IH]; intros done best Hb; simpl.
    - now rewrite app_nil_r.
    - replace (done ++ r :: l) with ((done ++ [r]) ++ l)
        by (rewrite <- app_assoc; reflexivity).
      apply IH. now apply consider_first_best. }
  apply (H university_data [] (None, 0)).
  split; cbn [fst snd]; [lra|]. left. repeat split; auto. intros r [].
Qed.
End FirstBest.

Lemma inter_size_le a b : (inter_size a b <= List.length a)%nat.
Proof.
  unfold inter_size. induction a as [| x a IH]; simpl; [lia|].
  destruct (mem x b); simpl; lia.
Qed.

Lemma ratio_at_most_one (a b : nat) :
  (0 < b)%nat -> (a <= b)%nat ->
  inject_Z (Z.of_nat a) / inject_Z (Z.of_nat b) <= 1.
Proof.
  intros Hb Hab. apply Qle_shift_div_r.
  - replace 0 with (inject_Z 0) by reflexivity. rewrite <- Zlt_Qlt. lia.
  - rewrite Qmult_1_l. rewrite <- Zle_Qle. lia.
Qed.

Lemma matches_at_most_one college_clean college_words r :
  Forall (fun x => x <= 1) (matches college_clean college_words r).
Proof.
  assert (Hone : forall x : Q, x <= 1 -> Forall (fun x => x <= 1) [x])
    by (intros x Hx; constructor; [exact Hx | constructor]).
  unfold matches.
  apply Forall_app; split; [| apply Forall_app; split; [| apply Forall_app; split]].
  - destruct (contains college_clean (normalized_name r));
      [apply Hone; lra | constructor].
  - destruct (contains (normalized_name r) college_clean);
      [apply Hone; lra | constructor].
  - destruct (_ && _) eqn:E; [| constructor].
    apply andb_prop in E. destruct E as [E1 E2].
    apply Nat.ltb_lt in E1. apply Nat.ltb_lt in E2.
    unfold PyNum.gt.
    match goal with |- context [Qlt_le_dec ?a ?b] => destruct (Qlt_le_dec a b) end;
      [| constructor].
    apply Hone. apply ratio_at_most_one; [lia|].
    pose proof (inter_size_le college_words
                  (to_set (split (normalized_name r)))). lia.
  - destruct (any_in abbreviations college_clean); [| constructor].
    destruct (any_in abbreviations (normalized_name r)); [| constructor].
    apply Forall_flat_map, Forall_forall. intros keyword _.
    match goal with |- context [if ?b then _ else _] => destruct b end; [| constructor].
    match goal with |- context [if ?b then _ else _] => destruct b end;
      [apply Hone; lra | constructor].
Qed.

Lemma entry_score_at_most_one college_clean college_words r :
  entry_score college_clean college_words r <= 1.
Proof.
  unfold entry_score.
  pose proof (matches_at_most_one college_clean college_words r) as H.
  destruct (matches college_clean college_words r) as [| x xs]; [lra|].
  destruct (list_max_spec x xs) as [Hin _].
  rewrite Forall_forall in H. now apply H.
Qed.

(** What a fuzzy result tells about the table. *)
Lemma fuzzy_result_facts university_data college_name reply s tr :
  find_university_tier university_data college_name reply = (fuzzy s, tr) ->
  let college_clean := lower (strip college_name) in
  let college_words := to_set (split college_clean) in
  let score := entry_score college_clean college_words in
  exists before r after,
    university_data = before ++ r :: after
    /\ tr = tier_and_rank r
    /\ score r = s
    /\ (forall r', In r' before -> score r' < s)
    /\ (forall r', In r' after -> score r' <= s)
    /\ 0.3 < s.
Proof.
  intros H college_clean college_words score.
  unfold find_university_tier in H.
  destruct university_data as [| r0 rows]; [discriminate|].
  fold college_clean in H. fold college_words in H.
  destruct (exact_match (r0 :: rows) college_clean); [| discriminate].
  pose proof (scored_pass_first_best college_clean college_words (r0 :: rows))
    as (_ & Hbest).
  destruct (scored_pass (r0 :: rows) college_clean college_words) as [[bm |] bs];
    [| discriminate].
  unfold PyNum.gt in H. destruct (Qlt_le_dec 0.3 bs) as [Hgt |]; [| discriminate].
  injection H as <- <-. cbn [fst snd] in Hbest.
  destruct Hbest as [(Hn & _) | (before & r & after & Hsplit & [= <-] & Hr & Hb & Ha)];
    [discriminate|].
  exists before, bm, after. repeat split; auto.
Qed.

(** X8. A fuzzy result is the tier and rank of a row of the table, namely
    the first row that attains the highest score: every earlier row
    scores strictly less and no later row scores more. *)
Theorem fuzzy_result_is_first_best :
  forall university_data college_name reply s tr,
    find_university_tier university_data college_name reply = (fuzzy s, tr) ->
    let college_clean := lower (strip college_name) in
    let college_words := to_set (split college_clean) in
    let score := entry_score college_clean college_words in
    exists before r after,
      university_data = before ++ r :: after
      /\ tr = tier_and_rank r
      /\ score r = s
      /\ (forall r', In r' before -> score r' < s)
      /\ (forall r', In r' after -> score r' <= s).
Proof.
  intros university_data college_name reply s tr H college_clean college_words score.
  destruct (fuzzy_result_facts _ _ _ _ _ H)
    as (before & r & after & H1 & H2 & H3 & H4 & H5 & _).
  exists before, r, after. repeat split; assumption.
Qed.

(** Two rows score 0.9 for the query "institute": the first one is
    returned. *)
Lemma fuzzy_result_is_first_best_witness :
  exists before r after,
    [smith_row; mit_row; mit_variant_row] = before ++ r :: after
    /\ ("S+", 1%Z) = tier_and_rank r
    /\ entry_score (lower (strip "institute"))
         (to_set (split (lower (strip "institute")))) r = 0.9
    /\ (forall r', In r' before ->
          entry_score (lower (strip "institute"))
            (to_set (split (lower (strip "institute")))) r' < 0.9)
    /\ (forall r', In r' after ->
          entry_score (lower (strip "institute"))
            (to_set (split (lower (strip "institute")))) r' <= 0.9).
Proof.
  apply (fuzzy_result_is_first_best [smith_row; mit_row; mit_variant_row]
           "institute" None 0.9 ("S+", 1%Z)).
  vm_compute. reflexivity.
Defined.

(** X9. The score that comes with a fuzzy result is above 0.3 and at most
    1. *)
Theorem fuzzy_score_range :
  forall university_data college_name reply s tr,
    find_university_tier university_data college_name reply = (fuzzy s, tr) ->
    0.3 < s /\ s <= 1.
Proof.
  intros university_data college_name reply s tr H.
  destruct (fuzzy_result_facts _ _ _ _ _ H)
    as (before & r & after & _ & _ & Hs & _ & _ & Hgt).
  split; [exact Hgt|]. rewrite <- Hs. apply entry_score_at_most_one.
Qed.

Lemma fuzzy_score_range_witness : 0.3 < 0.9 /\ 0.9 <= 1.
Proof.
  apply (fuzzy_score_range [smith_row; mit_row] "mit" None 0.9 ("A", 400%Z)).
  vm_compute. reflexivity.
Defined.

(** *** Case and surrounding white space of the query *)

Lemma isspace_lower_char c : isspace (lower_char c) = isspace c.
Proof.
  destruct c as [[] [] [] [] [] [] [] []]; reflexivity.
Qed.

Lemma lstrip_lower s : lstrip (lower s) = lower (lstrip s).
Proof.
  induction s as [| c s IH]; simpl; [reflexivity|].
  rewrite isspace_lower_char. now destruct (isspace c).
Qed.

Lemma rstrip_lower s : rstrip (lower s) = lower (rstrip s).
Proof.
  induction s as [| c s IH]; simpl; [reflexivity|].
  rewrite IH, isspace_lower_char.
  destruct (rstrip s); simpl; [now destruct (isspace c) | reflexivity].
Qed.

Lemma strip_lower s : strip (lower s) = lower (strip s).
Proof.
  unfold strip. now rewrite lstrip_lower, rstrip_lower.
Qed.

(** X10. With a table that has rows, the result of [find_university_tier]
    depends on the query only through its trimmed, lowercased form: two
    queries that differ in letter case or surrounding white space resolve
    alike, also when the resolver escalates. *)
Theorem resolution_ignores_case_and_margin :
  forall university_data name1 name2 reply,
    university_data <> [] ->
    lower (strip name1) = lower (strip name2) ->
    find_university_tier university_data name1 reply
    = find_university_tier university_data name2 reply.
Proof.
  intros university_data name1 name2 reply Hne Heq.
  unfold find_university_tier, get_strict_university_assessment,
    _get_fallback_university_rating.
  destruct university_data as [| r0 rows]; [congruence|].
  rewrite !strip_lower, Heq. reflexivity.
Qed.

Lemma resolution_ignores_case_and_margin_witness :
  find_university_tier [smith_row; mit_row] "  SMITH college " None
  = find_university_tier [smith_row; mit_row] "smith College" None.
Proof.
  apply (resolution_ignores_case_and_margin [smith_row; mit_row]
           "  SMITH college " "smith College" None).
  - discriminate.
  - reflexivity.
Defined.

(** *** The blank query *)

Lemma matches_blank r :
  normalized_name r <> "" -> matches "" [] r = [0.9].
Proof.
  intros H. unfold matches.
  destruct (normalized_name r) as [| c u] eqn:E; [congruence|].
  reflexivity.
Qed.

Lemma scored_pass_blank r0 rows :
  (forall r, In r (r0 :: rows) -> normalized_name r <> "") ->
  scored_pass (r0 :: rows) "" [] = (Some r0, 0.9).
Proof.
  intros H. unfold scored_pass. simpl fold_left.
  unfold consider at 2. rewrite matches_blank by (apply H; now left).
  change (PyNum.gt (PyNum.list_max 0.9 []) (snd (@None row, 0))) with true.
  cbv iota.
  assert (Hrows : forall r, In r rows -> normalized_name r <> "")
    by (intros r Hr; apply H; now right).
  clear H. induction rows as [| r rows IH]; [reflexivity|].
  simpl fold_left. unfold consider at 2.
  rewrite matches_blank by (apply Hrows; now left).
  change (PyNum.gt (PyNum.list_max 0.9 []) (snd (Some r0, PyNum.list_max 0.9 [])))
    with false.
  cbv iota. apply IH. intros r' Hr'. apply Hrows. now right.
Qed.

(** X11. A query that is empty or all white space counts as contained in
    every name: unless some row has an empty name, the resolver returns
    the first row of the table as a fuzzy match with score 0.9. *)
Theorem blank_query_matches_first_row :
  forall r0 rows college_name reply,
    strip college_name = "" ->
    (forall r, In r (r0 :: rows) -> normalized_name r <> "") ->
    find_university_tier (r0 :: rows) college_name reply
    = (fuzzy 0.9, tier_and_rank r0).
Proof.
  intros r0 rows college_name reply Hblank Hnames.
  unfold find_university_tier. rewrite Hblank.
  change (lower "") with "". change (to_set (split "")) with (@nil string).
  assert (Hexact : exact_match (r0 :: rows) "" = []).
  { unfold exact_match.
    assert (H : forall l, (forall r, In r l -> normalized_name r <> "") ->
                          filter (fun r => String.eqb (normalized_name r) "") l = []).
    { induction l as [| r l IH]; intros Hl; simpl; [reflexivity|].
      destruct (String.eqb (normalized_name r) "") eqn:E.
      - apply String.eqb_eq in E. exfalso. apply (Hl r); [now left | exact E].
      - apply IH. intros r' Hr'. apply Hl. now right. }
    now apply H. }
  rewrite Hexact, scored_pass_blank by exact Hnames.
  reflexivity.
Qed.

Lemma blank_query_matches_first_row_witness :
  find_university_tier [smith_row; mit_row] "   " None
  = (fuzzy 0.9, tier_and_rank smith_row).
Proof.
  apply (blank_query_matches_first_row smith_row [mit_row] "   " None).
  - reflexivity.
  - intros r [<- | [<- | []]]; discriminate.
Defined.

(** *** Escalation *)

Lemma fallback_rating_values university_name :
  In (_get_fallback_university_rating university_name)
     [("S+", 92%Z); ("S", 85%Z); ("A+", 75%Z); ("B", 45%Z); ("C", 35%Z)].
Proof.
  unfold _get_fallback_university_rating. split_ifs; simpl; auto 6.
Qed.

(** X12. When the resolver escalates, the pair it returns is one of the
    five ratings of the static list, whose second component is a score out
    of 100 (92, 85, 75, 45 or 35) where the table paths return a rank; the
    tiers A and B+ never come out of an escalation. *)
Theorem escalation_returns_static_rating :
  forall university_data college_name reply tr,
    find_university_tier university_data college_name reply = (external_fallback, tr) ->
    In tr [("S+", 92%Z); ("S", 85%Z); ("A+", 75%Z); ("B", 45%Z); ("C", 35%Z)].
Proof.
  intros university_data college_name reply tr H.
  unfold find_university_tier in H.
  destruct university_data as [| r0 rows]; [discriminate|].
  destruct (exact_match _ _); [| discriminate].
  destruct (scored_pass _ _ _) as [[bm |] bs].
  - destruct (PyNum.gt bs 0.3); [discriminate|].
    injection H as <-. apply fallback_rating_values.
  - injection H as <-. apply fallback_rating_values.
Qed.

Lemma escalation_returns_static_rating_witness :
  In ("S+", 92%Z) [("S+", 92%Z); ("S", 85%Z); ("A+", 75%Z); ("B", 45%Z); ("C", 35%Z)].
Proof.
  apply (escalation_returns_static_rating [mit_row] "mit" None ("S+", 92%Z)).
  reflexivity.
Defined.

(** ** The matcher is sound

    Whatever the matcher hands to its continuation is the end of a match
    in the declarative sense. *)

Import ReSpec.

Section Sound.
Context {A : Type}.
Variable ic : bool.

Lemma match_lit_sound lit (k : Re.pos -> option A) :
  forall p x,
    Re.match_lit ic lit k p = Some x ->
    exists q, lit_spans ic lit p q /\ k q = Some x.
Proof.
  induction lit as [| a lit IH]; intros p x H; simpl in H.
  - exists p. split; [reflexivity | exact H].
  - destruct (Re.step p) as [[c p'] |] eqn:E; [| discriminate].
    destruct (Re.lit_eq ic a c) eqn:L; [| discriminate].
    destruct (IH _ _ H) as (q & Hq & Hk).
    exists q. split; [| exact Hk]. simpl. exists c, p'. auto.
Qed.

Section RepetitionSound.
Variable r : Re.re.
Variable body : (Re.pos -> option A) -> Re.pos -> option A.
Variable lz : bool.
Variable k : Re.pos -> option A.
Hypothesis body_sound :
  forall k' p x, body k' p = Some x -> exists q, spans ic r p q /\ k' q = Some x.

Let allowed (budget : option nat) (extra : nat) : Prop :=
  match budget with Some b => (extra <= b)%nat | None => True end.

Lemma more_sound fuel :
  forall budget p x,
    Re.more body lz k fuel budget p = Some x ->
    exists extra q, repeats ic r extra p q /\ allowed budget extra /\ k q = Some x.
Proof.
  assert (Hstop : forall budget p x,
             k p = Some x ->
             exists extra q,
               repeats ic r extra p q /\ allowed budget extra /\ k q = Some x).
  { intros budget p x H. exists O, p. repeat split; [constructor | | exact H].
    destruct budget; simpl; [lia | exact I]. }
  induction fuel as [| fuel IH]; intros budget p x H.
  - apply Hstop. exact H.
  - assert (Hagain : forall budget',
              (forall extra, allowed budget' extra -> allowed budget (S extra)) ->
              body (fun q =>
                      if (String.length (Re.rest q) <? String.length (Re.rest p))%nat
                      then Re.more body lz k fuel budget' q
                      else None) p = Some x ->
              exists extra q,
                repeats ic r extra p q /\ allowed budget extra /\ k q = Some x).
    { intros budget' Hstep Ha. apply body_sound in Ha. destruct Ha as (q1 & Hq1 & Hm).
      destruct (_ <? _)%nat; [| discriminate].
      apply IH in Hm. destruct Hm as (extra & q & Hrep & Hb & Hk).
      exists (S extra), q. repeat split; [econstructor; eassumption | auto | exact Hk]. }
    simpl in H. destruct budget as [[| b] |]; simpl in H.
    + now apply Hstop.
    + destruct lz.
      * destruct (k p) eqn:Ek; [injection H as ->; now apply Hstop|].
        apply (Hagain (Some b)); [simpl; intros; lia | exact H].
      * match type of H with
        | match ?t with _ => _ end = _ => destruct t eqn:Ea
        end; [injection H as -> | now apply Hstop].
        apply (Hagain (Some b)); [simpl; intros; lia | exact Ea].
    + destruct lz.
      * destruct (k p) eqn:Ek; [injection H as ->; now apply Hstop|].
        apply (Hagain None); [simpl; auto | exact H].
      * match type of H with
        | match ?t with _ => _ end = _ => destruct t eqn:Ea
        end; [injection H as -> | now apply Hstop].
        apply (Hagain None); [simpl; auto | exact Ea].
Qed.

Lemma must_sound budget n :
  forall p x,
    Re.must body lz k budget n p = Some x ->
    exists extra q,
      repeats ic r (n + extra) p q /\ allowed budget extra /\ k q = Some x.
Proof.
  induction n as [| n IH]; intros p x H; simpl in H.
  - now apply more_sound in H.
  - apply body_sound in H. destruct H as (q1 & Hq1 & Hm).
    apply IH in Hm. destruct Hm as (extra & q & Hrep & Hb & Hk).
    exists extra, q. repeat split; [| exact Hb | exact Hk].
    simpl. econstructor; eassumption.
Qed.
End RepetitionSound.

(** Soundness: a successful run of the matcher has handed to its
    continuation a position where the pattern has matched. *)
Lemma m_sound r :
  forall (k : Re.pos -> option A) p x,
    Re.m ic r k p = Some x ->
    exists q, spans ic r p q /\ k q = Some x.
Proof.
  induction r as [lit | c | r1 IH1 r2 IH2 | r1 IH1 r2 IH2 | lz mn mx r1 IH1 | | r1 IH1];
    intros k p x H; simpl in H.
  - apply match_lit_sound in H. destruct H as (q & Hq & Hk).
    exists q. split; [now constructor | exact Hk].
  - destruct (Re.step p) as [[y p'] |] eqn:E; [| discriminate].
    destruct (Re.cls_match c y) eqn:M; [| discriminate].
    exists p'. split; [econstructor; eassumption | exact H].
  - apply IH1 in H. destruct H as (q1 & Hq1 & H).
    apply IH2 in H. destruct H as (q & Hq & Hk).
    exists q. split; [econstructor; eassumption | exact Hk].
  - destruct (Re.m ic r1 k p) eqn:E.
    + injection H as ->. apply IH1 in E. destruct E as (q & Hq & Hk).
      exists q. split; [now apply spans_alt_left | exact Hk].
    + apply IH2 in H. destruct H as (q & Hq & Hk).
      exists q. split; [now apply spans_alt_right | exact Hk].
  - apply (must_sound r1 (Re.m ic r1)) in H; [| exact IH1].
    destruct H as (extra & q & Hrep & Hb & Hk).
    exists q. split; [| exact Hk].
    apply spans_rep with (extra := extra); [| exact Hrep].
    unfold within. destruct mx; simpl in Hb; [exact Hb | exact I].
  - destruct (xorb _ _) eqn:E; [| discriminate].
    exists p. split; [now constructor | exact H].
  - apply IH1 in H. destruct H as (q & Hq & Hk).
    eexists. split; [apply spans_grp; exact Hq | exact Hk].
Qed.
End Sound.

Lemma search_sound ic r s q :
  Re.search ic r s = Some q ->
  exists p, spans ic r p q /\ Re.grp p = None.
Proof.
  unfold Re.search. generalize (@None ascii) as before.
  induction s as [| c s IH]; intros before H; simpl in H.
  - destruct (Re.m ic r Some (Re.start_at before "")) eqn:E; [| discriminate].
    injection H as ->. apply m_sound in E. destruct E as (q0 & Hq0 & [= ->]).
    eexists. split; [exact Hq0 | reflexivity].
  - destruct (Re.m ic r Some (Re.start_at before (String c s))) eqn:E.
    + injection H as ->. apply m_sound in E. destruct E as (q0 & Hq0 & [= ->]).
      eexists. split; [exact Hq0 | reflexivity].
    + now apply IH in H.
Qed.

(** *** The tiers the assessment can return *)

Lemma range_A_C c :
  Re.cls_match (Re.Range "A" "C") c = true -> c = "A"%char \/ c = "B"%char \/ c = "C"%char.
Proof.
  destruct c as [[] [] [] [] [] [] [] []]; simpl; intros H;
    try discriminate H; auto.
Qed.

Lemma step_rest p c q :
  Re.step p = Some (c, q) -> Re.rest p = String c (Re.rest q).
Proof.
  unfold Re.step. destruct (Re.rest p); [discriminate|]. now intros [= <- <-].
Qed.

Lemma tier_capture p q :
  spans false tier_pattern p q ->
  In (Re.group1 q) ["A"; "A+"; "B"; "B+"; "C"; "C+"].
Proof.
  unfold tier_pattern. simpl Re.seq. intros H.
  inversion H as [| | ? ? ? q1 ? _ H2 | | | | |]; subst. clear H.
  inversion H2 as [| | ? ? ? q2 ? _ H3 | | | | |]; subst. clear H2.
  inversion H3 as [| | | | | | | ? ? q3 H4]; subst. clear H3.
  inversion H4 as [| | ? ? ? q4 ? H5 H6 | | | | |]; subst. clear H4.
  inversion H5 as [| ? ? c ? Hstep Hc | | | | | |]; subst. clear H5.
  apply range_A_C in Hc. apply step_rest in Hstep.
  inversion H6 as [| | | | | ? ? ? ? extra ? ? Hw Hrep | |]; subst. clear H6.
  unfold within in Hw. simpl in Hw, Hrep.
  unfold Re.group1, Re.consumed. cbn [Re.grp Re.rest].
  assert (Hzero : forall s, substring 0 0 s = "") by (intros s; destruct s; reflexivity).
  assert (Hsub1 : forall n : nat, (S n - n)%nat = 1%nat) by (intros; lia).
  assert (Hsub2 : forall n : nat, (S (S n) - n)%nat = 2%nat) by (intros; lia).
  destruct extra as [| [| extra]]; [| | lia].
  - inversion Hrep; subst. rewrite Hstep.
    cbn [String.length]. rewrite Hsub1. simpl. rewrite Hzero. destruct Hc as [-> | [-> | ->]]; auto 7.
  - inversion Hrep as [| ? ? ? q5 ? Hplus Hnone]; subst.
    inversion Hnone; subst.
    inversion Hplus as [| ? ? c2 ? Hstep2 Hc2 | | | | | |]; subst.
    cbn [Re.cls_match] in Hc2. apply Ascii.eqb_eq in Hc2. subst c2.
    apply step_rest in Hstep2. rewrite Hstep, Hstep2.
    cbn [String.length]. rewrite Hsub2. simpl. rewrite Hzero. destruct Hc as [-> | [-> | ->]]; auto 7.
Qed.

(** X13. [get_ai_university_assessment] never returns the tiers S+ or S,
    whatever the service replies: its tier pattern accepts only the
    letters A to C, and its final fallback gives B or C.  The tier it
    returns is one of A, A+, B, B+, C and C+, the last of which is not a
    tier of the scale. *)
Theorem ai_assessment_tiers :
  forall college_name reply,
    In (fst (get_ai_university_assessment college_name reply))
       ["A"; "A+"; "B"; "B+"; "C"; "C+"].
Proof.
  intros college_name reply.
  assert (Hfinal : In (fst (final_university_fallback college_name))
                      ["A"; "A+"; "B"; "B+"; "C"; "C+"]).
  { unfold final_university_fallback. destruct (_ && _); simpl; auto 7. }
  unfold get_ai_university_assessment.
  destruct reply as [response |]; [| exact Hfinal].
  destruct (Re.search false tier_pattern response) as [tier_match |] eqn:E;
    [| exact Hfinal].
  destruct (Re.search false rank_pattern response) as [rank_match |];
    [| exact Hfinal].
  cbn [fst]. apply search_sound in E. destruct E as (start & Hspan & _).
  now apply tier_capture in Hspan.
Qed.

(** ** The oracle functions of main.py *)

Import MainOracle.

Lemma int_digits_nonneg s : (0 <= PyConv.int_digits s)%Z.
Proof.
  unfold PyConv.int_digits.
  assert (H : forall s acc, (0 <= acc)%Z -> (0 <= PyConv.int_digits_acc acc s)%Z).
  { induction s0 as [| c s0 IH]; intros acc Hacc;
      cbn [PyConv.int_digits_acc]; [exact Hacc|].
    apply IH. unfold PyConv.digit_value.
    pose proof (Zle_0_nat (nat_of_ascii c - 48)). lia. }
  apply H. lia.
Qed.

(** X14. Whatever the service replies, the pair returned by
    [get_career_wealth_estimate] has non-negative components and a short
    horizon of at most 60% of the long one: on the validated path, on the
    path that takes the first number of the second reply with a fifth of
    it, and on the emergency fallback. *)
Theorem career_wealth_estimate_ratio :
  forall aspiration country reply1 reply2,
    let p := get_career_wealth_estimate aspiration country reply1 reply2 in
    0 <= fst p /\ 0 <= snd p /\ snd p <= fst p * 0.6.
Proof.
  intros aspiration country reply1 reply2 p.
  assert (Hretry : 0 <= fst (retry_lifetime reply2) /\ 0 <= snd (retry_lifetime reply2)
                   /\ snd (retry_lifetime reply2) <= fst (retry_lifetime reply2) * 0.6).
  { unfold retry_lifetime, emergency_fallback.
    destruct reply2 as [response |]; [| cbn [fst snd]; repeat split; lra].
    destruct (Re.findall false digits_pattern response) as [| n rest];
      [cbn [fst snd]; repeat split; lra|].
    cbn [fst snd].
    assert (H : 0 <= inject_Z (PyConv.int_digits n)).
    { replace 0 with (inject_Z 0) by reflexivity. rewrite <- Zle_Qle.
      apply int_digits_nonneg. }
    repeat split; lra. }
  assert (Hvalid : forall l t,
             let q := validate_wealth_estimates aspiration l t in
             0 <= fst q /\ 0 <= snd q /\ snd q <= fst q * 0.6).
  { intros l t q.
    destruct (validate_wealth_estimates_facts aspiration l t)
      as ([F1 F2] & _ & _ & R & _).
    subst q. repeat split; lra. }
  subst p. unfold get_career_wealth_estimate.
  destruct reply1 as [response |]; [| exact Hretry].
  destruct (Re.search false lifetime_nw_pattern response); [| exact Hretry].
  destruct (Re.search false ten_year_nw_pattern response); [| exact Hretry].
  apply Hvalid.
Qed.

Lemma tier_probabilities_range college_tier :
  0.25 <= dict_get tier_probabilities college_tier 0.4
  /\ dict_get tier_probabilities college_tier 0.4 <= 0.85.
Proof.
  apply (dict_get_Forall (fun x => 0.25 <= x /\ x <= 0.85)).
  - unfold tier_probabilities. repeat constructor; simpl; lra.
  - lra.
Qed.

(** X15. The fallback on tier and age gives a probability between 0.2 and
    0.9 for every tier and age (its final clamp to [0.1, 0.95] never
    acts), so the confidence wording chosen for it is never the lowest
    one. *)
Theorem tier_fallback_confidence :
  forall age college_tier,
    let probability := fst (tier_fallback age college_tier) in
    0.2 <= probability /\ probability <= 0.9
    /\ get_oracle_confidence probability
       <> "The journey requires extraordinary determination".
Proof.
  intros age college_tier probability.
  assert (H : 0.2 <= probability /\ probability <= 0.9).
  { subst probability. unfold tier_fallback, clamp_probability. cbn [fst].
    destruct (tier_probabilities_range college_tier) as [Hlo Hhi].
    set (base := dict_get tier_probabilities college_tier 0.4) in *. clearbody base.
    destruct (age <=? 22)%Z; [| destruct (30 <=? age)%Z]; split_cmp; split; lra. }
  destruct H as [Hlo Hhi]. repeat split; [exact Hlo | exact Hhi |].
  unfold get_oracle_confidence, ge.
  destruct (Qlt_le_dec probability 0.8); [| discriminate].
  destruct (Qlt_le_dec probability 0.6); [| discriminate].
  destruct (Qlt_le_dec probability 0.4); [| discriminate].
  destruct (Qlt_le_dec probability 0.2); [lra | discriminate].
Qed.

(** ** How the labeled patterns read an amount

    The labeled patterns end with the grouped number and no [\b]: the
    greedy match takes three digits, then whole groups of three, and
    stops. *)

Section GreedySteps.
Context {A : Type}.
Variable body : (Re.pos -> option A) -> Re.pos -> option A.
Variable k : Re.pos -> option A.

Lemma more_budget_spent fuel p :
  Re.more body false k fuel (Some O) p = k p.
Proof. destruct fuel; reflexivity. Qed.

(** A greedy repetition takes one more iteration when the body can only
    move to [q] and the rest of the match succeeds from there. *)
Lemma more_takes fuel budget p q x :
  (forall k', body k' p = k' q) ->
  (String.length (Re.rest q) < String.length (Re.rest p))%nat ->
  budget <> Some O ->
  Re.more body false k fuel (option_map Nat.pred budget) q = Some x ->
  Re.more body false k (S fuel) budget p = Some x.
Proof.
  intros Hbody Hlt Hbudget Hnext. simpl.
  rewrite Hbody. apply Nat.ltb_lt in Hlt. rewrite Hlt, Hnext.
  destruct budget as [[| b] |]; [congruence | reflexivity | reflexivity].
Qed.

(** It stops where the body cannot match. *)
Lemma more_stops fuel budget p :
  (forall k', body k' p = None) ->
  Re.more body false k fuel budget p = k p.
Proof.
  intros Hbody. destruct fuel as [| fuel]; [reflexivity|].
  simpl. rewrite Hbody. now destruct budget as [[| b] |].
Qed.
End GreedySteps.

Lemma digit_char_facts c :
  Re.is_digit c = true ->
  isspace c = false
  /\ Re.lit_eq true "$" c = false
  /\ Re.lit_eq true "," c = false
  /\ Ascii.eqb c "," = false
  /\ (0 <= PyConv.digit_value c <= 9)%Z.
Proof.
  destruct c as [[] [] [] [] [] [] [] []]; intros H; try discriminate H;
    repeat split; try reflexivity; unfold PyConv.digit_value; simpl; lia.
Qed.

Section ReadingDigits.
Context {A : Type}.

Lemma m_cat ic r1 r2 (k : Re.pos -> option A) p :
  Re.m ic (Re.Cat r1 r2) k p = Re.m ic r1 (Re.m ic r2 k) p.
Proof. reflexivity. Qed.

Lemma m_rep ic lz mn mx r (k : Re.pos -> option A) p :
  Re.m ic (Re.Rep lz mn mx r) k p
  = Re.must (Re.m ic r) lz k (option_map (fun x => x - mn)%nat mx) mn p.
Proof. reflexivity. Qed.

Lemma m_grp ic r (k : Re.pos -> option A) p :
  Re.m ic (Re.Grp r) k p
  = Re.m ic r (fun q => k (Re.mkpos (Re.prev q) (Re.rest q)
                             (Some (String.substring 0 (Re.consumed p q) (Re.rest p))))) p.
Proof. reflexivity. Qed.

Lemma digit_step c pr s g (k : Re.pos -> option A) ic :
  Re.is_digit c = true ->
  Re.m ic (Re.Cls Re.Digit) k (Re.mkpos pr (String c s) g)
  = k (Re.mkpos (Some c) s g).
Proof.
  intros H. cbn [Re.m Re.step Re.rest Re.grp Re.cls_match]. now rewrite H.
Qed.

Lemma digit_step_fails pr s g (k : Re.pos -> option A) ic :
  match s with EmptyString => True | String t _ => Re.is_digit t = false end ->
  Re.m ic (Re.Cls Re.Digit) k (Re.mkpos pr s g) = None.
Proof.
  intros H. destruct s as [| t s]; [reflexivity|].
  cbn [Re.m Re.step Re.rest Re.grp Re.cls_match]. now rewrite H.
Qed.

(** [,?] before a digit matches nothing. *)
Lemma optional_comma_skipped c pr s g (k : Re.pos -> option A) :
  Re.is_digit c = true ->
  Re.m true (Re.opt (Re.Str ",")) k (Re.mkpos pr (String c s) g)
  = k (Re.mkpos pr (String c s) g).
Proof.
  intros H. destruct (digit_char_facts c H) as (_ & _ & Hcomma & _).
  unfold Re.opt. rewrite m_rep. cbn [Re.must]. apply more_stops.
  intros k'. cbn [Re.m Re.match_lit Re.step Re.rest Re.grp]. now rewrite Hcomma.
Qed.

(** One group [,?\d{3}] on three digits. *)
Lemma group_taken c1 c2 c3 pr s g (k : Re.pos -> option A) :
  Re.is_digit c1 = true -> Re.is_digit c2 = true -> Re.is_digit c3 = true ->
  Re.m true (Re.Cat (Re.opt (Re.Str ",")) (Re.times 3 3 (Re.Cls Re.Digit))) k
    (Re.mkpos pr (String c1 (String c2 (String c3 s))) g)
  = k (Re.mkpos (Some c3) s g).
Proof.
  intros H1 H2 H3. rewrite m_cat, optional_comma_skipped by exact H1.
  unfold Re.times. rewrite m_rep. cbn [Re.must].
  rewrite !digit_step by assumption.
  cbn [option_map Nat.sub]. apply more_budget_spent.
Qed.

(** The same group cannot be taken where fewer than two digits follow a
    digit. *)
Lemma group_refused c pr s g (k : Re.pos -> option A) :
  Re.is_digit c = true ->
  match s with EmptyString => True | String t _ => Re.is_digit t = false end ->
  Re.m true (Re.Cat (Re.opt (Re.Str ",")) (Re.times 3 3 (Re.Cls Re.Digit))) k
    (Re.mkpos pr (String c s) g)
  = None.
Proof.
  intros H Hs. rewrite m_cat, optional_comma_skipped by exact H.
  unfold Re.times. rewrite m_rep. cbn [Re.must].
  rewrite digit_step by exact H. now apply digit_step_fails.
Qed.
End ReadingDigits.

Lemma lit_eq_same ic a : Re.lit_eq ic a a = true.
Proof. unfold Re.lit_eq. destruct ic; apply Ascii.eqb_refl. Qed.

(** A literal at the head of the text is matched and passed. *)
Lemma match_lit_head {A : Type} ic lit s g :
  forall pr, exists pr',
    forall k : Re.pos -> option A,
      Re.match_lit ic lit k (Re.mkpos pr (lit ++ s)%string g) = k (Re.mkpos pr' s g).
Proof.
  induction lit as [| a lit IH]; intros pr.
  - exists pr. reflexivity.
  - destruct (IH (Some a)) as [pr' H]. exists pr'. intros k.
    cbn [Re.match_lit String.append Re.step Re.rest Re.grp].
    rewrite lit_eq_same. apply H.
Qed.

Lemma search_at_start ic r s q :
  Re.m ic r Some (Re.start_at None s) = Some q -> Re.search ic r s = Some q.
Proof.
  intros H. unfold Re.search. destruct s; simpl; now rewrite H.
Qed.

(** The grouped number on seven digits that no digit follows: the match
    ends after the sixth. *)
Lemma grouped_number_seven {A : Type} c1 c2 c3 c4 c5 c6 c7 tail pr g
    (k : Re.pos -> option A) x :
  forallb Re.is_digit [c1; c2; c3; c4; c5; c6; c7] = true ->
  match tail with EmptyString => True | String t _ => Re.is_digit t = false end ->
  k (Re.mkpos (Some c6) (String c7 tail) g) = Some x ->
  Re.m true grouped_number k
    (Re.mkpos pr
       (String c1 (String c2 (String c3 (String c4 (String c5 (String c6 (String c7 tail)))))))
       g)
  = Some x.
Proof.
  intros Hd Htail Hk. cbn [forallb] in Hd.
  repeat (apply andb_prop in Hd; destruct Hd as [? Hd]). clear Hd.
  unfold grouped_number. rewrite m_cat. unfold Re.times at 1.
  rewrite m_rep. cbn [Re.must]. rewrite digit_step by assumption.
  cbn [Re.rest String.length option_map Nat.sub].
  eapply more_takes;
    [intros k'; apply digit_step; assumption | cbn; lia | discriminate |].
  cbn [option_map Nat.pred].
  eapply more_takes;
    [intros k'; apply digit_step; assumption | cbn; lia | discriminate |].
  cbn [option_map Nat.pred]. rewrite more_budget_spent.
  unfold Re.star. rewrite m_rep. cbn [Re.must Re.rest String.length option_map].
  eapply more_takes;
    [intros k'; apply group_taken; assumption | cbn; lia | discriminate |].
  cbn [option_map]. rewrite more_stops; [exact Hk|].
  intros k'. apply group_refused; assumption.
Qed.

Lemma space_refused {A : Type} c pr s g (k : Re.pos -> option A) ic :
  Re.is_digit c = true ->
  Re.m ic (Re.Cls Re.Space) k (Re.mkpos pr (String c s) g) = None.
Proof.
  intros H. destruct (digit_char_facts c H) as (Hspace & _).
  cbn [Re.m Re.step Re.rest Re.grp Re.cls_match]. now rewrite Hspace.
Qed.

(** [\$?] before a digit matches nothing. *)
Lemma optional_dollar_skipped {A : Type} c pr s g (k : Re.pos -> option A) :
  Re.is_digit c = true ->
  Re.m true (Re.opt (Re.Str "$")) k (Re.mkpos pr (String c s) g)
  = k (Re.mkpos pr (String c s) g).
Proof.
  intros H. destruct (digit_char_facts c H) as (_ & Hdollar & _).
  unfold Re.opt. rewrite m_rep. cbn [Re.must]. apply more_stops.
  intros k'. cbn [Re.m Re.match_lit Re.step Re.rest Re.grp]. now rewrite Hdollar.
Qed.

Lemma int_digits_drop_last s c :
  (0 <= PyConv.digit_value c <= 9)%Z ->
  (PyConv.int_digits (s ++ String c EmptyString) / 10)%Z = PyConv.int_digits s.
Proof.
  intros Hc. unfold PyConv.int_digits. generalize 0%Z as acc.
  induction s as [| a s IH]; intros acc; cbn [String.append PyConv.int_digits_acc].
  - symmetry. apply Z.div_unique with (r := PyConv.digit_value c); lia.
  - apply IH.
Qed.

(** X16. A seven-digit amount written without separators after the label
    LIFETIME_NET_WORTH, at the head of the reply and followed by no
    further digit, is read by the labeled patterns as its first six
    digits: the value extracted is the integer part of a tenth of the
    amount. *)
Theorem seven_digit_amount_read_short :
  forall c1 c2 c3 c4 c5 c6 c7 tail,
    forallb Re.is_digit [c1; c2; c3; c4; c5; c6; c7] = true ->
    match tail with EmptyString => True | String t _ => Re.is_digit t = false end ->
    let amount :=
      String c1 (String c2 (String c3 (String c4 (String c5 (String c6
        (String c7 EmptyString)))))) in
    first_match lifetime_patterns ("LIFETIME_NET_WORTH: " ++ amount ++ tail)%string
    = Some (inject_Z (PyConv.int_digits amount / 10)).
Proof.
  intros c1 c2 c3 c4 c5 c6 c7 tail Hd Htail amount.
  assert (Hd' := Hd). cbn [forallb] in Hd'.
  repeat (apply andb_prop in Hd'; destruct Hd' as [? Hd']). clear Hd'.
  set (captured :=
         String c1 (String c2 (String c3 (String c4 (String c5 (String c6 EmptyString)))))).
  assert (Hsearch :
    exists q, Re.search true (labeled_value [Re.Str "LIFETIME_NET_WORTH:"])
                ("LIFETIME_NET_WORTH: " ++ amount ++ tail)%string = Some q
              /\ Re.group1 q = captured).
  { destruct (@match_lit_head Re.pos true "LIFETIME_NET_WORTH:"
                (String " " (amount ++ tail)%string) None None) as [pr Hlabel].
    eexists. split.
    - apply search_at_start.
      change (labeled_value [Re.Str "LIFETIME_NET_WORTH:"])
        with (Re.Cat (Re.Str "LIFETIME_NET_WORTH:")
                (Re.Cat (Re.star (Re.Cls Re.Space))
                   (Re.Cat (Re.opt (Re.Str "$")) (Re.Grp grouped_number)))).
      rewrite m_cat.
      change (Re.m true (Re.Str "LIFETIME_NET_WORTH:") ?k ?p)
        with (Re.match_lit true "LIFETIME_NET_WORTH:" k p).
      change (Re.start_at None ("LIFETIME_NET_WORTH: " ++ amount ++ tail)%string)
        with (Re.mkpos None
                ("LIFETIME_NET_WORTH:" ++ String " " (amount ++ tail))%string None).
      rewrite Hlabel.
      rewrite m_cat. unfold Re.star at 1. rewrite m_rep.
      subst amount. cbn [Re.must Re.rest String.length String.append option_map].
      eapply more_takes; [intros k'; reflexivity | cbn; lia | discriminate |].
      cbn [option_map]. rewrite more_stops
        by (intros k'; apply space_refused; assumption).
      rewrite m_cat, optional_dollar_skipped by assumption.
      rewrite m_grp. apply grouped_number_seven; [exact Hd | exact Htail |].
      reflexivity.
    - subst amount captured.
      unfold Re.group1, Re.consumed.
      cbn [Re.grp Re.rest String.length String.append].
      replace (S (S (S (S (S (S (S (String.length tail))))))) - S (String.length tail))%nat
        with 6%nat by lia.
      cbn [String.substring].
      now replace (String.substring 0 0 (String c7 tail)) with EmptyString. }
  destruct Hsearch as (q & Hq & Hgroup).
  unfold lifetime_patterns. cbn [first_match]. rewrite Hq, Hgroup.
  f_equal. unfold PyConv.float_of_grouped. f_equal.
  assert (Hkeep : PyConv.drop_commas captured = captured).
  { subst captured. cbn [PyConv.drop_commas].
    repeat match goal with
           | H : Re.is_digit ?c = true |- context [Ascii.eqb ?c ","] =>
               rewrite (proj1 (proj2 (proj2 (proj2 (digit_char_facts c H)))))
           end.
    reflexivity. }
  rewrite Hkeep. symmetry.
  change amount with (captured ++ String c7 EmptyString)%string.
  apply int_digits_drop_last.
  apply (digit_char_facts c7). assumption.
Qed.

(** The amount of the prompt's own example, 2500000, is read as 250000. *)
Lemma seven_digit_amount_read_short_witness :
  first_match lifetime_patterns "LIFETIME_NET_WORTH: 2500000, TEN_YEAR_NET_WORTH: 400000"
  = Some (inject_Z (PyConv.int_digits "2500000" / 10)).
Proof.
  apply (seven_digit_amount_read_short "2" "5" "0" "0" "0" "0" "0"
           ", TEN_YEAR_NET_WORTH: 400000"); reflexivity.
Defined.
